(** * Mermaid diagram patch for the embedded syntax-highlighting component

    A shallow embedding of [syntax_highlighting_patch.js]: the language
    registry, the theme adapter, the lazy loader of the rendering library and
    the patched [highlight] / [_renderMermaidDiagram] methods, followed by the
    properties the specification states about them.

    Conventions of the embedding.
    - A JavaScript string is a [string]; its characters are code units below
      256, which is enough for every literal of the source.
    - A property that may be [undefined] is an [option]; [None] is
      [undefined] (or [null], the source never tells them apart).
    - The source runs on one thread: every callback runs to its next [await]
      without interruption.  An [async] function is therefore cut at its
      [await]s into pieces, each piece being one atomic transition of the
      state machine [step] below. *)

From Stdlib Require Import Ascii String List Bool Arith Lia.
From stdpp Require Import base option list strings.

(* ================================================================= *)
(** * Part I.  Definitions                                             *)
(* ================================================================= *)

(** ** JavaScript primitives used by the source *)

(** Truthiness of a value that is a string or [undefined]. *)
Definition truthy (v : option string) : bool :=
  match v with
  | Some (String _ _) => true
  | _ => false
  end.

(** [a || b] on such values. *)
Definition js_or (a b : option string) : option string :=
  if truthy a then a else b.

(** [a || 'lit'], the last operand being a string literal. *)
Definition js_or_str (a : option string) (b : string) : string :=
  match a with
  | Some (String c s) => String c s
  | _ => b
  end.

(** White space removed by [String.prototype.trim], among code units below
    256: TAB, LF, VT, FF, CR, SPACE and NBSP. *)
Definition is_white_space (c : ascii) : bool :=
  existsb (Ascii.eqb c)
    ["009"; "010"; "011"; "012"; "013"; "032"; "160"]%char.

Fixpoint trimStart (s : string) : string :=
  match s with
  | String c s' => if is_white_space c then trimStart s' else s
  | EmptyString => EmptyString
  end.

Fixpoint trimEnd (s : string) : string :=
  match s with
  | String c s' =>
      match trimEnd s' with
      | EmptyString => if is_white_space c then EmptyString else String c EmptyString
      | t => String c t
      end
  | EmptyString => EmptyString
  end.

Definition trim (s : string) : string := trimEnd (trimStart s).

(** [s.split(sep)] for a non-empty separator.  [skip] counts the characters
    of a separator occurrence still to be stepped over, [cur] is the piece
    being read, most recent character first. *)
Fixpoint split_go (sep s : string) (skip : nat) (cur : list ascii) : list string :=
  match s with
  | EmptyString => [string_of_list_ascii (rev cur)]
  | String c s' =>
      match skip with
      | S k => split_go sep s' k cur
      | O =>
          if String.prefix sep s
          then string_of_list_ascii (rev cur) :: split_go sep s' (String.length sep - 1) []
          else split_go sep s' 0 (c :: cur)
      end
  end.

Definition split (sep s : string) : list string := split_go sep s 0 [].

(** [s.startsWith(p)] *)
Definition startsWith (p s : string) : bool := String.prefix p s.

(** [xs.join(sep)], used to describe a cookie header. *)
Fixpoint join (sep : string) (xs : list string) : string :=
  match xs with
  | [] => EmptyString
  | [x] => x
  | x :: rest => x +:+ sep +:+ join sep rest
  end.

(** ** The language registry *)

(** A JavaScript object literal with string keys lists its properties in the
    order they are written, so the registry is an association list. *)
Definition Registry := list (string * string).

Definition MERMAID_LANGUAGES : Registry :=
  [ ("plaintext", "Plain Text");
    ("markdown", "Markdown");
    ("mermaid", "Mermaid");
    ("javascript", "Javascript");
    ("typescript", "Typescript");
    ("jsdoc", "JSDoc");
    ("java", "Java");
    ("python", "Python");
    ("html", "HTML");
    ("xml", "XML");
    ("svg", "SVG");
    ("json", "JSON");
    ("css", "CSS");
    ("sass", "SASS");
    ("scss", "SCSS");
    ("sql", "SQL");
    ("diff", "Diff") ].

(** The toolbar of the host: its [languages] property and whatever else the
    host keeps in it. *)
Record CodeToolbar (Rest : Type) := mkCodeToolbar {
  languages : Registry;
  toolbar_rest : Rest
}.
Arguments mkCodeToolbar {Rest} _ _.
Arguments languages {Rest} _.
Arguments toolbar_rest {Rest} _.

(** The patched [setup]: the host's own [setup] runs first, then the
    [languages] property is overwritten. *)
Definition setup {Rest : Type} (super_setup : CodeToolbar Rest -> CodeToolbar Rest)
    (this : CodeToolbar Rest) : CodeToolbar Rest :=
  let this1 := super_setup this in
  mkCodeToolbar MERMAID_LANGUAGES (toolbar_rest this1).

(** ** The theme adapter *)

(** The ambient theme signals read by the source. *)
Record Ambient := mkAmbient {
  colorScheme : option string;        (* document.documentElement.dataset.colorScheme *)
  cookie : string;                    (* document.cookie *)
  getPropertyValue : string -> string (* of getComputedStyle(document.documentElement);
                                         the empty string for an unset property *)
}.

(** [document.cookie.split('; ').find(row => row.startsWith('color_scheme='))?.split('=')[1]] *)
Definition cookie_color_scheme (ck : string) : option string :=
  match find (startsWith "color_scheme=") (split "; " ck) with
  | Some row => split "=" row !! 1
  | None => None
  end.

Definition getOdooTheme (a : Ambient) : string :=
  js_or_str (js_or (colorScheme a) (cookie_color_scheme (cookie a))) "light".

Definition cssVar (a : Ambient) (name fallback : string) : string :=
  let v := trim (getPropertyValue a name) in
  js_or_str (Some v) fallback.

Record ThemeVariables := mkThemeVariables {
  primaryColor : string;
  primaryTextColor : string;
  primaryBorderColor : string;
  lineColor : string;
  secondaryColor : string;
  tertiaryColor : string;
  background : string;
  mainBkg : string;
  secondBkg : string;
  border1 : string;
  border2 : string;
  arrowheadColor : string;
  fontFamily : string;
  fontSize : string;
  textColor : string;
  nodeTextColor : string
}.

Record ThemeConfig := mkThemeConfig {
  theme : string;
  themeVariables : ThemeVariables
}.

Definition getMermaidThemeConfig (a : Ambient) : ThemeConfig :=
  let isDark := String.eqb (getOdooTheme a) "dark" in
  let primary := cssVar a "--o-brand-primary" (if isDark then "#4a90a4" else "#714B67") in
  let textColor := cssVar a "--o-main-text-color" (if isDark then "#e5e7eb" else "#374151") in
  let bgColor := cssVar a "--o-view-background-color" (if isDark then "#374151" else "#fff") in
  {| theme := "base";
     themeVariables :=
       if isDark then
         {| primaryColor := primary;
            primaryTextColor := "#fff";
            primaryBorderColor := "#5a6d7a";
            lineColor := "#8b9aa5";
            secondaryColor := "#3d4f5f";
            tertiaryColor := "#2d3e4a";
            background := "transparent";
            mainBkg := bgColor;
            secondBkg := "#2d3748";
            border1 := "#4b5563";
            border2 := "#6b7280";
            arrowheadColor := "#9ca3af";
            fontFamily := "inherit";
            fontSize := "14px";
            textColor := textColor;
            nodeTextColor := "#f3f4f6" |}
       else
         {| primaryColor := primary;
            primaryTextColor := "#fff";
            primaryBorderColor := "#5a3d52";
            lineColor := "#6b7280";
            secondaryColor := "#f3e8ee";
            tertiaryColor := "#faf5f8";
            background := "transparent";
            mainBkg := bgColor;
            secondBkg := "#f9fafb";
            border1 := "#e5e7eb";
            border2 := "#d1d5db";
            arrowheadColor := "#374151";
            fontFamily := "inherit";
            fontSize := "14px";
            textColor := textColor;
            nodeTextColor := "#1f2937" |} |}.

(** ** The dependency loader *)

Definition MERMAID_CDN_URL : string :=
  "https://cdn.jsdelivr.net/npm/mermaid@11/dist/mermaid.esm.min.mjs".

(** A thrown value: an object whose [message] property may be missing. *)
Record JsError := mkJsError {
  message : option string
}.

(** The object [module.default] of the rendering library.  It is foreign
    code: all that matters of it here is its identity and whether its
    [initialize] method throws. *)
Record Handle := mkHandle {
  hid : nat;
  initialize_throws : option JsError
}.

(** The argument of [initialize]: three fixed options and the theme
    configuration spread after them. *)
Record InitConfig := mkInitConfig {
  startOnLoad : bool;
  securityLevel : string;
  suppressErrorRendering : bool;
  init_theme : string;
  init_themeVariables : ThemeVariables
}.

Definition initialize_argument (t : ThemeConfig) : InitConfig :=
  {| startOnLoad := false;
     securityLevel := "strict";
     suppressErrorRendering := true;
     init_theme := theme t;
     init_themeVariables := themeVariables t |}.

(** How the dynamic [import(MERMAID_CDN_URL)] ends: rejected, or resolved to
    a module whose [default] export may be missing. *)
Inductive ImportOutcome :=
| ImportRejected (e : JsError)
| ImportResolved (default : option Handle).

(** The promise of one run of the inner [async] arrow function.  Its body
    catches everything, so the promise is never rejected: it is fulfilled
    with the handle, or with [null]. *)
Inductive Promise :=
| Pending
| Fulfilled (v : option Handle).

(** The two module-level variables, with the promises created so far (a
    promise is named by its position in [promises]) and what the loader did
    to the outside: the [import] calls it issued, the [initialize] calls that
    returned, and the lines it wrote with [console.error]. *)
Record Loader := mkLoader {
  mermaidModule : option Handle;
  mermaidLoadingPromise : option nat;
  promises : list Promise;
  imports : list string;
  initialized : list (Handle * InitConfig);
  console_error : list (string * JsError)
}.

Definition loader_init : Loader :=
  {| mermaidModule := None;
     mermaidLoadingPromise := None;
     promises := [];
     imports := [];
     initialized := [];
     console_error := [] |}.

(** What a call of [loadMermaid] hands to its caller: the cached handle, or
    the promise of the load in flight. *)
Inductive LoadResult :=
| Ready (h : Handle)
| InFlight (p : nat).

(** [loadMermaid()], up to the [await import(...)] of the inner function. *)
Definition loadMermaid (l : Loader) : Loader * LoadResult :=
  match mermaidModule l with
  | Some h => (l, Ready h)
  | None =>
      match mermaidLoadingPromise l with
      | Some p => (l, InFlight p)
      | None =>
          let p := length (promises l) in
          ({| mermaidModule := mermaidModule l;
              mermaidLoadingPromise := Some p;
              promises := promises l ++ [Pending];
              imports := MERMAID_CDN_URL :: imports l;
              initialized := initialized l;
              console_error := console_error l |},
           InFlight p)
      end
  end.

(** The [TypeError] raised by [mermaidModule.initialize] when
    [module.default] is [undefined]; the text is the engine's. *)
Definition TypeError_initialize : JsError :=
  {| message := Some "Cannot read properties of undefined (reading 'initialize')" |}.

(** The [catch] block of the inner function. *)
Definition load_failed (e : JsError) (m : option Handle) (p : nat) (l : Loader) : Loader :=
  {| mermaidModule := m;
     mermaidLoadingPromise := None;
     promises := <[p := Fulfilled None]> (promises l);
     imports := imports l;
     initialized := initialized l;
     console_error := ("Failed to load Mermaid:", e) :: console_error l |}.

(** The rest of the inner function, run when the [import] of promise [p]
    settles.  [mermaidModule] is assigned before [initialize] is called. *)
Definition import_settled (a : Ambient) (p : nat) (o : ImportOutcome) (l : Loader)
    : option Loader :=
  match promises l !! p with
  | Some Pending =>
      Some
        match o with
        | ImportRejected e => load_failed e (mermaidModule l) p l
        | ImportResolved None => load_failed TypeError_initialize None p l
        | ImportResolved (Some h) =>
            match initialize_throws h with
            | Some e => load_failed e (Some h) p l
            | None =>
                {| mermaidModule := Some h;
                   mermaidLoadingPromise := mermaidLoadingPromise l;
                   promises := <[p := Fulfilled (Some h)]> (promises l);
                   imports := imports l;
                   initialized :=
                     (h, initialize_argument (getMermaidThemeConfig a)) :: initialized l;
                   console_error := console_error l |}
            end
        end
  | _ => None
  end.

(** The value [await loadMermaid()] yields, once there is one. *)
Definition awaited (l : Loader) (r : LoadResult) : option (option Handle) :=
  match r with
  | Ready h => Some (Some h)
  | InFlight p =>
      match promises l !! p with
      | Some (Fulfilled v) => Some v
      | _ => None
      end
  end.

(** ** The patched component *)

(** The shape shared by [this.embeddedState] and [this.props]. *)
Record CodeState := mkCodeState {
  languageId : option string;
  value : option string
}.

Record PreElement := mkPre {
  pre_display : string;        (* pre.style.display *)
  pre_textContent : string
}.

Record TextareaElement := mkTextarea {
  textarea_value : string;
  textarea_display : string    (* textarea.style.display *)
}.

(** The part of the component that belongs to the host. *)
Record HostView := mkHostView {
  embeddedState : option CodeState;
  props : option CodeState;
  pre : option PreElement;
  textarea : option TextareaElement;
  state : option bool          (* this.state, as its isActive flag *)
}.

(** The methods of the host the patch calls. *)
Class Host := {
  HighlightResult : Type;
  super_highlight : bool -> HostView -> HostView * HighlightResult;
  openCodeToolbar : option (HostView -> HostView)
}.

(** The element created by the patch. *)
Record Container := mkContainer {
  cid : nat;                   (* identity of the element *)
  className : string;
  style_cssText : string;      (* as assigned at creation *)
  style_display : string;
  innerHTML : string;
  click_listener : bool
}.

(** The children of [pre.parentNode], around [pre]. *)
Inductive Node :=
| ContainerNode (id : nat)
| OtherNode (id : nat).

Record Siblings := mkSiblings {
  previousSiblings : list Node;   (* nearest first *)
  nextSiblings : list Node        (* [pre.nextSibling] first *)
}.

(** A suspended activation of [_renderMermaidDiagram].  The call
    [mermaid.render(id, text)] stands under [await] inside the [try] block:
    a call that throws at once and a promise rejected later both end in the
    [catch] block, so both are seen as the outcome of the awaited call. *)
Inductive Task :=
| AwaitLoad (r : LoadResult)                       (* at [await loadMermaid()] *)
| AwaitRender (h : Handle) (id text : string)      (* at [await mermaid.render(id, text)] *)
| Returned
| Threw (e : JsError).                             (* the activation ended in a rejection *)

Inductive RenderOutcome :=
| RenderResolved (svg : string)
| RenderRejected (e : JsError).

Record World := mkWorld {
  ambient : Ambient;
  loader : Loader;
  host : HostView;
  _mermaidContainer : option Container;
  pre_parentNode : option Siblings;     (* [None]: [pre] has no parent *)
  created : nat;                        (* elements created so far *)
  tasks : list Task;
  render_calls : list (Handle * string * string)   (* mermaid.render(id, text), latest first *)
}.

Definition with_ambient (a : Ambient) (w : World) : World :=
  mkWorld a (loader w) (host w) (_mermaidContainer w) (pre_parentNode w)
    (created w) (tasks w) (render_calls w).
Definition with_loader (l : Loader) (w : World) : World :=
  mkWorld (ambient w) l (host w) (_mermaidContainer w) (pre_parentNode w)
    (created w) (tasks w) (render_calls w).
Definition with_host (h : HostView) (w : World) : World :=
  mkWorld (ambient w) (loader w) h (_mermaidContainer w) (pre_parentNode w)
    (created w) (tasks w) (render_calls w).
Definition with_container (c : option Container) (w : World) : World :=
  mkWorld (ambient w) (loader w) (host w) c (pre_parentNode w)
    (created w) (tasks w) (render_calls w).
Definition with_parentNode (s : option Siblings) (w : World) : World :=
  mkWorld (ambient w) (loader w) (host w) (_mermaidContainer w) s
    (created w) (tasks w) (render_calls w).
Definition with_created (n : nat) (w : World) : World :=
  mkWorld (ambient w) (loader w) (host w) (_mermaidContainer w) (pre_parentNode w)
    n (tasks w) (render_calls w).
Definition with_tasks (ts : list Task) (w : World) : World :=
  mkWorld (ambient w) (loader w) (host w) (_mermaidContainer w) (pre_parentNode w)
    (created w) ts (render_calls w).
Definition with_render_calls (rs : list (Handle * string * string)) (w : World) : World :=
  mkWorld (ambient w) (loader w) (host w) (_mermaidContainer w) (pre_parentNode w)
    (created w) (tasks w) rs.

(** [pre.style.display = d] and [textarea.style.display = d], each under
    its [if (this.pre)] / [if (this.textarea)] guard. *)
Definition set_display (d : string) (h : HostView) : HostView :=
  {| embeddedState := embeddedState h;
     props := props h;
     pre := (fun p => mkPre d (pre_textContent p)) <$> pre h;
     textarea := (fun t => mkTextarea (textarea_value t) d) <$> textarea h;
     state := state h |}.

(** [if (this.pre) this.pre.textContent = s] *)
Definition set_pre_textContent (s : string) (h : HostView) : HostView :=
  {| embeddedState := embeddedState h;
     props := props h;
     pre := (fun p => mkPre (pre_display p) s) <$> pre h;
     textarea := textarea h;
     state := state h |}.

Definition is_container (id : nat) (n : Node) : bool :=
  match n with
  | ContainerNode j => Nat.eqb id j
  | OtherNode _ => false
  end.

(** [element.remove()] for the container [id]. *)
Definition remove_node (id : nat) (s : Siblings) : Siblings :=
  {| previousSiblings := filter (fun n => negb (is_container id n)) (previousSiblings s);
     nextSiblings := filter (fun n => negb (is_container id n)) (nextSiblings s) |}.

(** [pre.parentNode.insertBefore(element, pre.nextSibling)] *)
Definition insert_after_pre (id : nat) (s : Siblings) : Siblings :=
  {| previousSiblings := previousSiblings s;
     nextSiblings := ContainerNode id :: nextSiblings s |}.

(** [this.embeddedState?.languageId || this.props?.languageId || "plaintext"] *)
Definition resolve_languageId (h : HostView) : string :=
  js_or_str (js_or (embeddedState h ≫= languageId) (props h ≫= languageId)) "plaintext".

(** [this.textarea?.value || this.embeddedState?.value || this.props?.value || ""] *)
Definition resolve_value (h : HostView) : string :=
  js_or_str
    (js_or (js_or (textarea_value <$> textarea h) (embeddedState h ≫= value))
           (props h ≫= value))
    "".

Definition dq : string := String "034"%char EmptyString.   (* the double quote *)
Definition nl : string := String "010"%char EmptyString.   (* the line feed *)

Definition LOAD_FAILED_TEXT : string := "Failed to load Mermaid library".

Definition CONTAINER_CSS : string :=
  "display: flex; justify-content: center; padding: 1rem; cursor: pointer;".

Definition PLACEHOLDER_HTML : string :=
  "<div style=" +:+ dq +:+ "color: #888; font-style: italic;" +:+ dq +:+
  ">Enter Mermaid code to render diagram</div>".

Definition error_html (msg : string) : string :=
  "<div style=" +:+ dq +:+ "color: #dc3545; padding: 0.5rem;" +:+ dq +:+ ">" +:+ nl +:+
  "                <strong>Mermaid syntax error:</strong><br>" +:+ nl +:+
  "                <small>" +:+ msg +:+ "</small>" +:+ nl +:+
  "            </div>".

(** [`mermaid-${Date.now()}-${Math.random().toString(36).slice(2, 9)}`]; the
    clock reading and the random digits are given by the environment. *)
Definition render_id (now rnd : string) : string :=
  "mermaid-" +:+ now +:+ "-" +:+ rnd.

(** The [TypeError] of [this._mermaidContainer.innerHTML = ...] when the
    reference is [null]; the text is the engine's. *)
Definition TypeError_innerHTML : JsError :=
  {| message := Some "Cannot set properties of null (setting 'innerHTML')" |}.

(** [_renderMermaidDiagram()], from the call to [await loadMermaid()]: the
    loader is called and the activation is suspended on what it returned. *)
Definition _renderMermaidDiagram (w : World) : World :=
  let (l, r) := loadMermaid (loader w) in
  with_tasks (tasks w ++ [AwaitLoad r]) (with_loader l w).

(** The body of [if (!this._mermaidContainer) { ... }]. *)
Definition create_container (w : World) : World :=
  let c := {| cid := created w;
              className := "o_mermaid_container";
              style_cssText := CONTAINER_CSS;
              style_display := "flex";
              innerHTML := "";
              click_listener := true |} in
  let parent :=
    match pre (host w), pre_parentNode w with
    | Some _, Some s => Some (insert_after_pre (cid c) s)
    | _, _ => pre_parentNode w
    end in
  with_created (S (created w)) (with_parentNode parent (with_container (Some c) w)).

Definition set_style_display (d : string) (c : Container) : Container :=
  mkContainer (cid c) (className c) (style_cssText c) d (innerHTML c) (click_listener c).

Definition set_innerHTML (html : string) (c : Container) : Container :=
  mkContainer (cid c) (className c) (style_cssText c) (style_display c) html (click_listener c).

(** [this._mermaidContainer.innerHTML = html]; a [TypeError] when the
    reference is [null]. *)
Definition assign_innerHTML (html : string) (w : World) : World + JsError :=
  match _mermaidContainer w with
  | Some c => inl (with_container (Some (set_innerHTML html c)) w)
  | None => inr TypeError_innerHTML
  end.

(** [_renderMermaidDiagram()], from the value [mermaid] of
    [await loadMermaid()] to [await mermaid.render(...)] or to a [return]. *)
Definition renderMermaidDiagram_loaded (t : nat) (mermaid : option Handle)
    (now rnd : string) (w : World) : World :=
  match mermaid with
  | None =>
      with_tasks (<[t := Returned]> (tasks w))
        (with_host (set_pre_textContent LOAD_FAILED_TEXT (host w)) w)
  | Some h =>
      let value := resolve_value (host w) in
      let trimmedValue := trim value in
      let w1 := match _mermaidContainer w with
                | Some _ => w
                | None => create_container w
                end in
      let w2 := with_host (set_display "none" (host w1)) w1 in
      let w3 := with_container (set_style_display "flex" <$> _mermaidContainer w2) w2 in
      if String.eqb trimmedValue "" then
        with_tasks (<[t := Returned]> (tasks w3))
          (with_container (set_innerHTML PLACEHOLDER_HTML <$> _mermaidContainer w3) w3)
      else
        let id := render_id now rnd in
        with_tasks (<[t := AwaitRender h id trimmedValue]> (tasks w3))
          (with_render_calls ((h, id, trimmedValue) :: render_calls w3) w3)
  end.

(** [_renderMermaidDiagram()], from the end of [mermaid.render] on: the
    [try] block after its [await], then the [catch] block. *)
Definition renderMermaidDiagram_rendered (t : nat) (o : RenderOutcome) (w : World) : World :=
  let tried :=
    match o with
    | RenderResolved svg => assign_innerHTML svg w
    | RenderRejected e => inr e
    end in
  let caught :=
    match tried with
    | inl w' => inl w'
    | inr e => assign_innerHTML (error_html (js_or_str (message e) "Invalid syntax")) w
    end in
  match caught with
  | inl w' => with_tasks (<[t := Returned]> (tasks w')) w'
  | inr e => with_tasks (<[t := Threw e]> (tasks w)) w
  end.

(** The body of [if (this._mermaidContainer) { ... }] in [highlight]. *)
Definition remove_container (c : Container) (w : World) : World :=
  with_host (set_display "" (host w))
    (with_container None
       (with_parentNode (remove_node (cid c) <$> pre_parentNode w) w)).

(** The patched [highlight(focus)] and the value it returns ([None] is
    [undefined]). *)
Definition highlight `{Host} (focus : bool) (w : World) : World * option HighlightResult :=
  let languageId := resolve_languageId (host w) in
  if String.eqb languageId "mermaid" then
    (_renderMermaidDiagram w, None)
  else
    let w1 := match _mermaidContainer w with
              | Some c => remove_container c w
              | None => w
              end in
    let (h, r) := super_highlight focus (host w1) in
    (with_host h w1, Some r).

(** The click listener of the container. *)
Definition container_clicked `{Host} (w : World) : World :=
  let h := host w in
  let h1 := mkHostView (embeddedState h) (props h) (pre h) (textarea h)
              ((fun _ => true) <$> state h) in
  match openCodeToolbar with
  | Some open => with_host (open h1) w
  | None => with_host h1 w
  end.

(** ** The transition system *)

(** What can happen, one callback at a time. *)
Inductive Event :=
| AmbientChanged (a : Ambient)             (* the theme signals change *)
| HostChanged (h : HostView)               (* the host edits its part of the component *)
| HighlightCalled (focus : bool)           (* the host calls [highlight(focus)] *)
| ImportSettled (p : nat) (o : ImportOutcome)
| LoadAwaited (t : nat) (now rnd : string) (* activation [t] resumes after [await loadMermaid()] *)
| RenderSettled (t : nat) (o : RenderOutcome)
| ContainerClicked
| LoaderCalled.                            (* another component calls [loadMermaid()] *)

(** One transition; [None] when the event cannot happen in [w]. *)
Definition step `{Host} (e : Event) (w : World) : option World :=
  match e with
  | AmbientChanged a => Some (with_ambient a w)
  | HostChanged h => Some (with_host h w)
  | HighlightCalled focus => Some (fst (highlight focus w))
  | ImportSettled p o =>
      l ← import_settled (ambient w) p o (loader w);
      Some (with_loader l w)
  | LoadAwaited t now rnd =>
      match tasks w !! t with
      | Some (AwaitLoad r) =>
          mermaid ← awaited (loader w) r;
          Some (renderMermaidDiagram_loaded t mermaid now rnd w)
      | _ => None
      end
  | RenderSettled t o =>
      match tasks w !! t with
      | Some (AwaitRender _ _ _) => Some (renderMermaidDiagram_rendered t o w)
      | _ => None
      end
  | ContainerClicked =>
      match _mermaidContainer w with
      | Some c => if click_listener c then Some (container_clicked w) else None
      | None => None
      end
  | LoaderCalled => Some (with_loader (fst (loadMermaid (loader w))) w)
  end.

Fixpoint run `{Host} (es : list Event) (w : World) : option World :=
  match es with
  | [] => Some w
  | e :: es' => step e w ≫= run es'
  end.

(** A component just mounted: nothing loaded, no container, no activation;
    the siblings of [pre], when it has a parent, are elements of the host. *)
Definition world_init (a : Ambient) (h : HostView) (s : option (list nat * list nat)) : World :=
  {| ambient := a;
     loader := loader_init;
     host := h;
     _mermaidContainer := None;
     pre_parentNode := (fun bf => mkSiblings (OtherNode <$> bf.1) (OtherNode <$> bf.2)) <$> s;
     created := 0;
     tasks := [];
     render_calls := [] |}.

(** The elements around [pre], and those among them that are containers. *)
Definition siblings (w : World) : list Node :=
  match pre_parentNode w with
  | Some s => previousSiblings s ++ nextSiblings s
  | None => []
  end.

Definition is_container_node (n : Node) : bool :=
  match n with
  | ContainerNode _ => true
  | OtherNode _ => false
  end.

Definition attached_containers (w : World) : list Node :=
  filter (fun n => is_container_node n = true) (siblings w).

(** ** The loader on its own *)

(** The loader is shared by every component of the page; seen alone, it is
    called, and the import it started settles. *)
Inductive LoaderEvent :=
| Called
| Settled (a : Ambient) (p : nat) (o : ImportOutcome).

Definition loader_step (e : LoaderEvent) (l : Loader) : option (Loader * list LoadResult) :=
  match e with
  | Called => let (l', r) := loadMermaid l in Some (l', [r])
  | Settled a p o => l' ← import_settled a p o l; Some (l', [])
  end.

(** A run of the loader, with what its calls returned, in order. *)
Fixpoint loader_run (es : list LoaderEvent) (l : Loader) : option (Loader * list LoadResult) :=
  match es with
  | [] => Some (l, [])
  | e :: es' =>
      '(l1, rs1) ← loader_step e l;
      '(l2, rs2) ← loader_run es' l1;
      Some (l2, rs1 ++ rs2)
  end.

(** ** Vocabulary of the statements *)

(** The first truthy value of a list of candidates, else a default: the
    precedence the specification describes for the language and the text. *)
Fixpoint first_truthy (candidates : list (option string)) (default : string) : string :=
  match candidates with
  | [] => default
  | Some (String c s) :: _ => String c s
  | _ :: rest => first_truthy rest default
  end.

(** A cookie header as the list of its cookies, the way the specification
    speaks of "the named cookie value". *)
Definition cookie_header (cookies : list (string * string)) : string :=
  join "; " ((fun nv => nv.1 +:+ "=" +:+ nv.2) <$> cookies).

Definition cookie_named (name : string) (cookies : list (string * string)) : option string :=
  snd <$> find (fun nv => String.eqb nv.1 name) cookies.

(** [c] does not occur in [s]. *)
Fixpoint lacks (c : ascii) (s : string) : bool :=
  match s with
  | EmptyString => true
  | String d s' => negb (Ascii.eqb c d) && lacks c s'
  end.

Definition well_formed_cookie (nv : string * string) : bool :=
  lacks ";" nv.1 && lacks "=" nv.1 && lacks ";" nv.2 && lacks "=" nv.2.

(** The configuration the library holds for the handle [h]: the argument of
    the latest [initialize] that returned. *)
Definition config_in_force (l : Loader) (h : Handle) : option InitConfig :=
  snd <$> find (fun hc => Nat.eqb (hid hc.1) (hid h)) (initialized l).

(** A host used to run the model on concrete inputs: its [highlight] writes
    the text into [pre] and returns the focus flag. *)
Definition plain_host : Host :=
  {| HighlightResult := bool;
     super_highlight := fun focus h => (set_pre_textContent (resolve_value h) h, focus);
     openCodeToolbar := Some (fun h => h) |}.

(** ** What the proofs maintain *)

(** What every run of the loader maintains: one [import] per promise; while
    a promise is pending nothing is cached and the in-flight marker names
    it; a promise fulfilled with a handle has left that handle cached. *)
Record loader_inv (l : Loader) : Prop := {
  inv_imports : length (imports l) = length (promises l);
  inv_pending : forall p, promises l !! p = Some Pending ->
                  mermaidModule l = None /\ mermaidLoadingPromise l = Some p;
  inv_fulfilled : forall p h, promises l !! p = Some (Fulfilled (Some h)) ->
                    mermaidModule l = Some h;
  inv_marker : forall p, mermaidLoadingPromise l = Some p -> mermaidModule l = None ->
                 promises l !! p = Some Pending
}.

(** The [initialize] call an event makes, if any. *)
Definition initialize_calls (w : World) (e : Event) : list (Handle * InitConfig) :=
  match e with
  | ImportSettled p (ImportResolved (Some h)) =>
      match promises (loader w) !! p, initialize_throws h with
      | Some Pending, None => [(h, initialize_argument (getMermaidThemeConfig (ambient w)))]
      | _, _ => []
      end
  | _ => []
  end.

(** The life of the container along one event: created (by an activation
    that resumes with a handle), kept, or removed (by a [highlight] call with
    another language). *)
Definition container_life `{Host} (e : Event) (w w' : World) : Prop :=
  match _mermaidContainer w, _mermaidContainer w' with
  | None, Some c' =>
      (exists t now rnd r m,
          e = LoadAwaited t now rnd /\ tasks w !! t = Some (AwaitLoad r)
          /\ awaited (loader w) r = Some (Some m))
      /\ cid c' = created w
      /\ created w' = S (created w)
      /\ pre_parentNode w' =
           match pre (host w) with
           | Some _ => insert_after_pre (cid c') <$> pre_parentNode w
           | None => pre_parentNode w
           end
  | Some c, Some c' =>
      cid c' = cid c /\ created w' = created w /\ pre_parentNode w' = pre_parentNode w
  | Some c, None =>
      (exists focus, e = HighlightCalled focus /\ resolve_languageId (host w) <> "mermaid")
      /\ created w' = created w
      /\ pre_parentNode w' = remove_node (cid c) <$> pre_parentNode w
  | None, None =>
      created w' = created w /\ pre_parentNode w' = pre_parentNode w
  end.

(** What holds of the document whenever the component is at rest: every
    container around [pre] is the one the component holds, and there is at
    most one. *)
Record container_inv (w : World) : Prop := {
  inv_held : forall id, ContainerNode id ∈ siblings w ->
               cid <$> _mermaidContainer w = Some id;
  inv_once : length (attached_containers w) <= 1
}.

(** ** The statements the source does not meet, as the specification words them *)

(** The claim C1 as the specification states it: at every call of the
    renderer, the configuration the library works with is the one derived
    from the theme signals of that moment. *)
Definition theme_recomputed_on_render `{Host} : Prop :=
  forall (a : Ambient) (h0 : HostView) (s : option (list nat * list nat))
         (es : list Event) (w w' : World) (t : nat) (now rnd : string)
         (m : Handle) (id text : string),
    run es (world_init a h0 s) = Some w ->
    step (LoadAwaited t now rnd) w = Some w' ->
    render_calls w' = (m, id, text) :: render_calls w ->
    config_in_force (loader w') m =
      Some (initialize_argument (getMermaidThemeConfig (ambient w'))).

(** The claim C4 as the specification states it, in two parts: with the
    diagram language and a blank text, an activation that resumes shows the
    placeholder and calls no renderer; and a [highlight] call does not touch
    the loader. *)
Definition blank_shows_placeholder `{Host} : Prop :=
  forall (a : Ambient) (h0 : HostView) (s : option (list nat * list nat))
         (es : list Event) (w w' : World) (t : nat) (now rnd : string),
    run es (world_init a h0 s) = Some w ->
    resolve_languageId (host w) = "mermaid" ->
    trim (resolve_value (host w)) = "" ->
    step (LoadAwaited t now rnd) w = Some w' ->
    innerHTML <$> _mermaidContainer w' = Some PLACEHOLDER_HTML
    /\ render_calls w' = render_calls w.

Definition blank_skips_loader `{Host} : Prop :=
  forall (a : Ambient) (h0 : HostView) (s : option (list nat * list nat))
         (es : list Event) (w : World) (focus : bool),
    run es (world_init a h0 s) = Some w ->
    resolve_languageId (host w) = "mermaid" ->
    trim (resolve_value (host w)) = "" ->
    loader (highlight focus w).1 = loader w.

(** ** Concrete inputs *)

Definition light_ambient : Ambient :=
  {| colorScheme := Some "light"; cookie := ""; getPropertyValue := fun _ => "" |}.

Definition dark_ambient : Ambient :=
  {| colorScheme := Some "dark"; cookie := ""; getPropertyValue := fun _ => "" |}.

Definition dark_cookie_ambient : Ambient :=
  {| colorScheme := None;
     cookie := "tz=UTC; color_scheme=dark; cids=1";
     getPropertyValue := fun name =>
       if String.eqb name "--o-brand-primary" then " #017e84 " else "" |}.

Definition loaded_handle : Handle := {| hid := 11; initialize_throws := None |}.

Definition parse_error : JsError := {| message := Some "Parse error on line 1" |}.

(** A component whose code block holds [text] in the language [lang]. *)
Definition code_block (lang text : string) : HostView :=
  {| embeddedState := Some {| languageId := Some lang; value := Some text |};
     props := Some {| languageId := Some "plaintext"; value := Some "" |};
     pre := Some {| pre_display := ""; pre_textContent := "" |};
     textarea := Some {| textarea_value := text; textarea_display := "" |};
     state := Some false |}.


Definition first_highlight : World :=
  _renderMermaidDiagram
    (world_init light_ambient (code_block "mermaid" "graph TD; A-->B") (Some ([], [7]))).

(** A diagram block whose library has just been loaded. *)
Definition library_loaded : World :=
  default first_highlight
    (@run plain_host [ImportSettled 0 (ImportResolved (Some loaded_handle))] first_highlight).

Definition blank_block : World :=
  world_init light_ambient (code_block "mermaid" "  ") (Some ([], [7])).

(** A diagram was rendered, then the language of the block was changed. *)
Definition rendered_then_python : World :=
  default first_highlight
    (@run plain_host
       [ImportSettled 0 (ImportResolved (Some loaded_handle));
        LoadAwaited 0 "1730000000000" "k3j9x2a";
        RenderSettled 0 (RenderResolved "<svg>1</svg>");
        HostChanged (set_display "none" (code_block "python" "print(1)"))]
       first_highlight).

Definition rendered_twice : list Event :=
  [HighlightCalled false;
   ImportSettled 0 (ImportResolved (Some loaded_handle));
   LoadAwaited 0 "1730000000000" "k3j9x2a";
   RenderSettled 0 (RenderResolved "<svg>1</svg>");
   HighlightCalled true;
   LoadAwaited 1 "1730000000999" "p0q8r7s"].

(** ** Vocabulary of the further properties *)

(** The part of [s] before the first [c]; all of [s] when [c] does not
    occur in it. *)
Fixpoint before_char (c : ascii) (s : string) : string :=
  match s with
  | EmptyString => EmptyString
  | String d s' => if Ascii.eqb c d then EmptyString else String d (before_char c s')
  end.

Definition starts_clean (s : string) : bool :=
  match s with
  | EmptyString => true
  | String c _ => negb (is_white_space c)
  end.

(** A load that ended in [null]. *)
Definition is_failed (p : Promise) : bool :=
  match p with
  | Fulfilled None => true
  | _ => false
  end.

(** What the past of the loader looks like in every state it reaches: only
    the latest load can be other than failed; every failed load wrote one
    line, under the fixed label; every [import] asked for the fixed URL;
    [initialize] returned at most once, for the cached handle, with an
    argument built by [initialize_argument]. *)
Record loader_history (l : Loader) : Prop := {
  hist_failed : forall p, S p < length (promises l) ->
                  promises l !! p = Some (Fulfilled None);
  hist_logged : length (console_error l) =
                length (filter (fun p => is_failed p = true) (promises l));
  hist_label : Forall (fun line => line.1 = "Failed to load Mermaid:") (console_error l);
  hist_url : Forall (fun url => url = MERMAID_CDN_URL) (imports l);
  hist_once : length (initialized l) <= 1;
  hist_entry : forall h cfg, (h, cfg) ∈ initialized l ->
                 mermaidModule l = Some h
                 /\ (exists a, cfg = initialize_argument (getMermaidThemeConfig a))
                 /\ (exists p, promises l !! p = Some (Fulfilled (Some h)));
  hist_loaded : forall p h, promises l !! p = Some (Fulfilled (Some h)) ->
                  exists cfg, initialized l = [(h, cfg)]
}.

(** A render call the source can make: on the handle [m], with an
    identifier built by [render_id] and a text that is trimmed and not
    empty. *)
Definition proper_call (l : Loader) (call : Handle * string * string) : Prop :=
  mermaidModule l = Some call.1.1
  /\ call.2 <> ""
  /\ trim call.2 = call.2
  /\ exists now rnd, call.1.2 = render_id now rnd.

(** What holds between the activations, the loader and the render calls in
    every state the component reaches. *)
Record activation_inv (w : World) : Prop := {
  act_loader : loader_inv (loader w);
  act_promise : forall t p, tasks w !! t = Some (AwaitLoad (InFlight p)) ->
                  p < length (promises (loader w));
  act_ready : forall t h, tasks w !! t = Some (AwaitLoad (Ready h)) ->
                mermaidModule (loader w) = Some h;
  act_calls : forall call, call ∈ render_calls w -> proper_call (loader w) call
}.

(** The container as the source makes it. *)
Definition as_created (c : Container) : Prop :=
  className c = "o_mermaid_container"
  /\ style_cssText c = CONTAINER_CSS
  /\ style_display c = "flex"
  /\ click_listener c = true.

Definition container_attrs (w : World) : Prop :=
  forall c, _mermaidContainer w = Some c -> as_created c /\ cid c < created w.

(** The document around [pre], against what the host mounted: the elements
    before [pre] are the host's; those after it are the host's, with the
    held container in front when it is attached. *)
Definition siblings_inv (s : option (list nat * list nat)) (w : World) : Prop :=
  match s with
  | None => pre_parentNode w = None
  | Some (b, f) =>
      exists next,
        pre_parentNode w = Some (mkSiblings (OtherNode <$> b) next)
        /\ (next = OtherNode <$> f
            \/ exists c, _mermaidContainer w = Some c
                         /\ next = ContainerNode (cid c) :: (OtherNode <$> f))
  end.

(** ** Further concrete inputs *)

Definition whitespace_css_ambient : Ambient :=
  {| colorScheme := None;
     cookie := "color_scheme=dark";
     getPropertyValue := fun _ => "  " |}.

Definition truncated_cookie_ambient : Ambient :=
  {| colorScheme := Some "";
     cookie := "tz=UTC; color_scheme=dark=1; color_scheme=light";
     getPropertyValue := fun _ => "" |}.

Definition stale_handle : Handle :=
  {| hid := 12; initialize_throws := Some {| message := Some "boom" |} |}.

Definition failed_then_loaded : list LoaderEvent :=
  [Called;
   Settled light_ambient 0 (ImportRejected {| message := Some "offline" |});
   Called; Called;
   Settled dark_ambient 1 (ImportResolved (Some loaded_handle))].

(** A diagram block whose import was rejected. *)
Definition library_failed : World :=
  default first_highlight
    (@run plain_host [ImportSettled 0 (ImportRejected {| message := Some "offline" |})]
       first_highlight).

(** A render was overtaken by a switch to another language. *)
Definition render_overtaken : World :=
  default first_highlight
    (@run plain_host
       [ImportSettled 0 (ImportResolved (Some loaded_handle));
        LoadAwaited 0 "1730000000000" "k3j9x2a";
        HostChanged (set_display "none" (code_block "python" "print(1)"));
        HighlightCalled false]
       first_highlight).

Definition padded_block : World :=
  world_init light_ambient (code_block "mermaid" ("  graph TD; A-->B " +:+ nl))
    (Some ([], [7])).

(** ** What a caller of the loader is given *)


(** ** What the source reads in a cookie header *)

(** The text after the prefix [p], for a string that starts with [p]. *)
Fixpoint after_prefix (p s : string) : option string :=
  match p, s with
  | EmptyString, _ => Some s
  | String c p', String d s' => if Ascii.eqb c d then after_prefix p' s' else None
  | String _ _, EmptyString => None
  end.

(** In the first row that starts with [color_scheme=]: the text between
    that prefix and the next [=], or the end of the row. *)
Fixpoint cookie_read (rows : list string) : option string :=
  match rows with
  | [] => None
  | row :: rows' =>
      match after_prefix "color_scheme=" row with
      | Some tail => Some (before_char "=" tail)
      | None => cookie_read rows'
      end
  end.

(** ** Two more statements of the specification, read as written *)

(** A cookie whose name and value can stand in a header. *)
Definition plain_cookie (nv : string * string) : bool :=
  lacks ";" nv.1 && lacks "=" nv.1 && lacks ";" nv.2.

(** "else the named color-scheme cookie value": the scheme is the value of
    the cookie named [color_scheme], whatever that value is. *)
Definition scheme_from_named_cookie : Prop :=
  forall (a : Ambient) (cookies : list (string * string)),
    forallb plain_cookie cookies = true ->
    cookie a = cookie_header cookies ->
    getOdooTheme a = first_truthy [colorScheme a; cookie_named "color_scheme" cookies] "light".

(** "takes the computed CSS custom property's value whenever that property
    is set and non-empty": the computed value itself, as soon as it is not
    the empty string. *)
Definition variables_from_computed_value : Prop :=
  forall (a : Ambient),
    let dark := String.eqb (getOdooTheme a) "dark" in
    let variable (name dark_default light_default : string) :=
      let v := getPropertyValue a name in
      if String.eqb v "" then (if dark then dark_default else light_default) else v in
    let vars := themeVariables (getMermaidThemeConfig a) in
    primaryColor vars = variable "--o-brand-primary" "#4a90a4" "#714B67"
    /\ textColor vars = variable "--o-main-text-color" "#e5e7eb" "#374151"
    /\ mainBkg vars = variable "--o-view-background-color" "#374151" "#fff".

(** "For every diagram render whose render call fails": in whatever state
    the component has reached when the rejection arrives, the container then
    holds the error message and [pre] and the textarea are hidden. *)
Definition render_failure_always_shown `{Host} : Prop :=
  forall (a : Ambient) (h0 : HostView) (s : option (list nat * list nat))
         (es : list Event) (w w' : World) (t : nat) (m : Handle) (id text : string)
         (e : JsError),
    run es (world_init a h0 s) = Some w ->
    tasks w !! t = Some (AwaitRender m id text) ->
    step (RenderSettled t (RenderRejected e)) w = Some w' ->
    innerHTML <$> _mermaidContainer w' =
      Some (error_html (first_truthy [message e] "Invalid syntax"))
    /\ pre_display <$> pre (host w') = (fun _ => "none") <$> pre (host w')
    /\ textarea_display <$> textarea (host w') = (fun _ => "none") <$> textarea (host w').

(** The language of the block is changed while the renderer works. *)
Definition language_switched_during_render : list Event :=
  [HighlightCalled false;
   ImportSettled 0 (ImportResolved (Some loaded_handle));
   LoadAwaited 0 "1730000000000" "k3j9x2a";
   HostChanged (set_display "none" (code_block "python" "print(1)"));
   HighlightCalled false].

Definition css_cookie_ambient : Ambient :=
  {| colorScheme := None;
     cookie := "token=YWJj==; color_scheme=dark; cids=1";
     getPropertyValue := fun name =>
       if String.eqb name "--o-brand-primary" then " #017e84 " else "" |}.

(* ================================================================= *)
(** * Part II.  Properties                                             *)
(* ================================================================= *)

(** ** The primitives on concrete inputs *)

Example split_rows :
  split "; " "a=1; color_scheme=dark; b=2" = ["a=1"; "color_scheme=dark"; "b=2"].
Proof. reflexivity. Qed.

Example split_empty : split "; " "" = [""].
Proof. reflexivity. Qed.

Example split_equals : split "=" "color_scheme=a=b" = ["color_scheme"; "a"; "b"].
Proof. reflexivity. Qed.

Example cookie_dark : cookie_color_scheme "a=1; color_scheme=dark; b=2" = Some "dark".
Proof. reflexivity. Qed.

Example cookie_absent : cookie_color_scheme "a=1; b=2" = None.
Proof. reflexivity. Qed.

Example trim_both_ends : trim "  #fff  " = "#fff".
Proof. reflexivity. Qed.

Example trim_blank : trim (" " +:+ nl +:+ " ") = "".
Proof. reflexivity. Qed.

Example light_defaults :
  let vars := themeVariables (getMermaidThemeConfig light_ambient) in
  (primaryColor vars, textColor vars, mainBkg vars, lineColor vars)
  = ("#714B67", "#374151", "#fff", "#6b7280").
Proof. reflexivity. Qed.

Example dark_defaults :
  let vars := themeVariables (getMermaidThemeConfig dark_ambient) in
  (primaryColor vars, textColor vars, mainBkg vars, lineColor vars)
  = ("#4a90a4", "#e5e7eb", "#374151", "#8b9aa5").
Proof. reflexivity. Qed.

(** ** The component on concrete inputs *)

(** A diagram is rendered, then rendered again: one import, one container
    right after [pre], the source view hidden, two render calls. *)
Example diagram_rendered_twice :
  (fun w => (length (imports (loader w)), siblings w,
             style_display <$> _mermaidContainer w, innerHTML <$> _mermaidContainer w,
             pre_display <$> pre (host w), snd <$> render_calls w, tasks w))
  <$> @run plain_host (rendered_twice ++ [RenderSettled 1 (RenderResolved "<svg>2</svg>")])
        (world_init light_ambient (code_block "mermaid" "graph TD; A-->B") (Some ([], [7])))
  = Some (1, [ContainerNode 0; OtherNode 7], Some "flex", Some "<svg>2</svg>",
          Some "none", ["graph TD; A-->B"; "graph TD; A-->B"], [Returned; Returned]).
Proof. vm_compute. reflexivity. Qed.

(** An activation cannot resume before the import it waits for has settled. *)
Example load_not_yet_awaited :
  @step plain_host (LoadAwaited 0 "1730000000000" "k3j9x2a") first_highlight = None.
Proof. reflexivity. Qed.

(** ** The language registry *)

(** C9.  After the patched [setup] of the toolbar, whatever the host's own
    [setup] did, the [languages] property is the fixed registry
    [MERMAID_LANGUAGES]; the rest of the toolbar is as the host left it.  The
    registry has the diagram language ["mermaid"], sixteen other languages
    (listed here in their menu order), and no identifier twice. *)
Theorem toolbar_languages_registry :
  forall (Rest : Type) (super_setup : CodeToolbar Rest -> CodeToolbar Rest)
         (this : CodeToolbar Rest),
    languages (setup super_setup this) = MERMAID_LANGUAGES
    /\ toolbar_rest (setup super_setup this) = toolbar_rest (super_setup this)
    /\ MERMAID_LANGUAGES !! 2 = Some ("mermaid", "Mermaid")
    /\ fst <$> delete 2 MERMAID_LANGUAGES =
         ["plaintext"; "markdown"; "javascript"; "typescript"; "jsdoc"; "java";
          "python"; "html"; "xml"; "svg"; "json"; "css"; "sass"; "scss"; "sql";
          "diff"]
    /\ NoDup (fst <$> MERMAID_LANGUAGES).
Proof.
  intros Rest super_setup this.
  repeat split.
  apply (bool_decide_unpack _). vm_compute. exact I.
Qed.

(** ** Resolution of the language and of the text *)

Lemma js_or_str_first_truthy (a b : option string) (d : string) :
  js_or_str (js_or a b) d = first_truthy [a; b] d.
Proof. destruct a as [[|c s]|], b as [[|c' s']|]; reflexivity. Qed.

Lemma resolve_languageId_precedence (h : HostView) :
  resolve_languageId h =
  first_truthy [embeddedState h ≫= languageId; props h ≫= languageId] "plaintext".
Proof. apply js_or_str_first_truthy. Qed.

Lemma resolve_value_precedence (h : HostView) :
  resolve_value h =
  first_truthy [textarea_value <$> textarea h; embeddedState h ≫= value; props h ≫= value] "".
Proof.
  unfold resolve_value.
  destruct (textarea_value <$> textarea h) as [[|c s]|],
    (embeddedState h ≫= value) as [[|c' s']|],
    (props h ≫= value) as [[|c'' s'']|]; reflexivity.
Qed.

(** C10.  The language identifier of a [highlight] call is the first truthy
    one of the embedded state's [languageId] and the props' [languageId],
    else ["plaintext"], and the call takes the diagram branch exactly when
    that identifier is ["mermaid"].  In diagram mode the text is the first
    non-empty one of the textarea's value, the embedded state's value and the
    props' value, else the empty string: when it is not blank, it is, trimmed,
    the text handed to the renderer. *)
Theorem language_and_text_precedence `{Host} :
  forall (w : World) (focus : bool) (t : nat) (m : Handle) (now rnd : string),
    let h := host w in
    let lang := first_truthy [embeddedState h ≫= languageId; props h ≫= languageId]
                  "plaintext" in
    let text := first_truthy [textarea_value <$> textarea h; embeddedState h ≫= value;
                              props h ≫= value] "" in
    resolve_languageId h = lang
    /\ resolve_value h = text
    /\ (highlight focus w).1 =
         (if String.eqb lang "mermaid" then _renderMermaidDiagram w
          else (highlight focus w).1)
    /\ (String.eqb lang "mermaid" = negb (bool_decide (is_Some (highlight focus w).2)))
    /\ render_calls (renderMermaidDiagram_loaded t (Some m) now rnd w) =
         (if String.eqb (trim text) "" then render_calls w
          else (m, render_id now rnd, trim text) :: render_calls w).
Proof.
  intros w focus t m now rnd h lang text.
  assert (Hl : resolve_languageId h = lang) by apply resolve_languageId_precedence.
  assert (Hv : resolve_value h = text) by apply resolve_value_precedence.
  split; [exact Hl |]. split; [exact Hv |].
  unfold highlight. fold h. rewrite Hl.
  destruct (String.eqb lang "mermaid") eqn:E.
  - repeat split.
    unfold renderMermaidDiagram_loaded. fold h. rewrite Hv.
    destruct (String.eqb (trim text) ""); destruct (_mermaidContainer w); reflexivity.
  - split; [reflexivity |]. split.
    + destruct (super_highlight focus _); reflexivity.
    + unfold renderMermaidDiagram_loaded. fold h. rewrite Hv.
      destruct (String.eqb (trim text) ""); destruct (_mermaidContainer w); reflexivity.
Qed.

(** ** The theme adapter *)

Lemma append_empty_r (s : string) : s +:+ "" = s.
Proof.
  induction s as [|c s IH]; [reflexivity |].
  change (String c (s +:+ "") = String c s). by rewrite IH.
Qed.

Section Split.
(** Splitting at a separator whose first character the pieces lack. *)
Variables (c0 : ascii) (rest : string).
Let sep := String c0 rest.

Lemma prefix_lacks (d : ascii) (s : string) :
  Ascii.eqb c0 d = false -> String.prefix sep (String d s) = false.
Proof.
  intros Hd. simpl. destruct (ascii_dec c0 d) as [->|]; [| reflexivity].
  by rewrite Ascii.eqb_refl in Hd.
Qed.

Lemma prefix_append (p s : string) : String.prefix p (p +:+ s) = true.
Proof.
  induction p as [|c p IH]; simpl; [by destruct s |].
  by destruct (ascii_dec c c).
Qed.

Lemma split_go_piece (x s : string) (cur : list ascii) :
  lacks c0 x = true ->
  split_go sep (x +:+ s) 0 cur = split_go sep s 0 (rev (list_ascii_of_string x) ++ cur).
Proof.
  revert cur. induction x as [|d x IH]; intros cur Hx; [reflexivity |].
  simpl in Hx. apply andb_prop in Hx as [Hd Hx].
  apply negb_true_iff in Hd.
  change (String d x +:+ s) with (String d (x +:+ s)).
  cbn [split_go]. rewrite (prefix_lacks _ _ Hd), (IH _ Hx).
  simpl. by rewrite <- app_assoc.
Qed.

Lemma split_go_skip (r s : string) (cur : list ascii) :
  split_go sep (r +:+ s) (String.length r) cur = split_go sep s 0 cur.
Proof. induction r as [|d r IH]; [reflexivity | exact IH]. Qed.

Lemma split_go_join (rows : list string) (x : string) (cur : list ascii) :
  Forall (fun piece => lacks c0 piece = true) (x :: rows) ->
  split_go sep (join sep (x :: rows)) 0 cur =
  string_of_list_ascii (rev (rev (list_ascii_of_string x) ++ cur)) :: rows.
Proof.
  revert x cur. induction rows as [|y rows IH]; intros x cur Hall.
  - apply Forall_cons in Hall as [Hx _].
    simpl join. rewrite <- (append_empty_r x) at 1.
    by rewrite split_go_piece.
  - apply Forall_cons in Hall as [Hx Hall].
    change (join sep (x :: y :: rows)) with (x +:+ sep +:+ join sep (y :: rows)).
    rewrite split_go_piece by done.
    change (sep +:+ join sep (y :: rows)) with (String c0 (rest +:+ join sep (y :: rows))).
    cbn [split_go].
    change (String c0 (rest +:+ join sep (y :: rows))) with (sep +:+ join sep (y :: rows)).
    rewrite prefix_append.
    replace (String.length sep - 1) with (String.length rest) by (simpl; lia).
    rewrite split_go_skip, (IH y [] Hall).
    simpl. by rewrite app_nil_r, rev_involutive, string_of_list_ascii_of_string.
Qed.

Lemma split_join (rows : list string) (x : string) :
  Forall (fun piece => lacks c0 piece = true) (x :: rows) ->
  split sep (join sep (x :: rows)) = x :: rows.
Proof.
  intros Hall. unfold split. rewrite split_go_join by done.
  by rewrite app_nil_r, rev_involutive, string_of_list_ascii_of_string.
Qed.
End Split.

Lemma lacks_append (c : ascii) (x y : string) :
  lacks c (x +:+ y) = lacks c x && lacks c y.
Proof.
  induction x as [|d x IH]; [reflexivity |].
  change (String d x +:+ y) with (String d (x +:+ y)).
  simpl. by rewrite IH, andb_assoc.
Qed.

(** A row [name=value] starts with [p=] exactly when its name is [p]. *)
Lemma startsWith_name (p n v : string) :
  lacks "=" p = true -> lacks "=" n = true ->
  startsWith (p +:+ "=") (n +:+ "=" +:+ v) = String.eqb n p.
Proof.
  unfold startsWith. revert n.
  induction p as [|c p IH]; intros [|d n] Hp Hn; simpl in Hp, Hn.
  - by destruct v.
  - apply andb_prop in Hn as [Hd _]. apply negb_true_iff in Hd.
    change (String.prefix (String "=" "") (String d (n +:+ "=" +:+ v)) = false).
    apply prefix_lacks, Hd.
  - apply andb_prop in Hp as [Hc _]. apply negb_true_iff in Hc.
    change (String.prefix (String c (p +:+ "=")) (String "=" v) = false).
    apply prefix_lacks. by rewrite Ascii.eqb_sym.
  - apply andb_prop in Hp as [_ Hp]. apply andb_prop in Hn as [_ Hn].
    change (String.prefix (String c (p +:+ "=")) (String d (n +:+ "=" +:+ v)) =
            String.eqb (String d n) (String c p)).
    simpl. destruct (ascii_dec c d) as [->|Hne].
    + rewrite Ascii.eqb_refl. by apply IH.
    + destruct (Ascii.eqb d c) eqn:E; [| reflexivity].
      apply Ascii.eqb_eq in E. congruence.
Qed.

Lemma find_fmap {A B : Type} (f : A -> B) (p : B -> bool) (l : list A) :
  find p (f <$> l) = f <$> find (fun x => p (f x)) l.
Proof.
  induction l as [|x l IH]; [reflexivity |].
  simpl. by destruct (p (f x)).
Qed.

(** On the header of well-formed cookies, the source reads the value of the
    first cookie named [color_scheme]. *)
Lemma cookie_color_scheme_header (cookies : list (string * string)) :
  forallb well_formed_cookie cookies = true ->
  cookie_color_scheme (cookie_header cookies) = cookie_named "color_scheme" cookies.
Proof.
  intros Hwf. destruct cookies as [|nv cookies]; [reflexivity |].
  unfold cookie_color_scheme, cookie_header, cookie_named.
  change ((fun nv0 : string * string => nv0.1 +:+ "=" +:+ nv0.2) <$> nv :: cookies)
    with ((nv.1 +:+ "=" +:+ nv.2) ::
          ((fun nv0 : string * string => nv0.1 +:+ "=" +:+ nv0.2) <$> cookies)).
  rewrite (split_join ";" " ").
  - change ((nv.1 +:+ "=" +:+ nv.2) ::
            ((fun nv0 : string * string => nv0.1 +:+ "=" +:+ nv0.2) <$> cookies))
      with ((fun nv0 : string * string => nv0.1 +:+ "=" +:+ nv0.2) <$> nv :: cookies).
    rewrite find_fmap.
    generalize dependent (nv :: cookies). clear nv cookies.
    intros l Hwf. induction l as [|[n v] l IH]; [reflexivity |].
    simpl in Hwf. apply andb_prop in Hwf as [Hnv Hwf].
    unfold well_formed_cookie in Hnv. simpl in Hnv.
    apply andb_prop in Hnv as [Hnv Hv2]. apply andb_prop in Hnv as [Hnv Hv1].
    apply andb_prop in Hnv as [Hn1 Hn2].
    pose proof (startsWith_name "color_scheme" n v eq_refl Hn2) as Hs.
    change ("color_scheme" +:+ "=") with "color_scheme=" in Hs.
    cbn [find fst snd]. rewrite Hs.
    destruct (String.eqb n "color_scheme"); [| by apply IH].
    change (split "=" (join "=" [n; v]) !! 1 = Some v).
    rewrite (split_join "=" "") by (repeat constructor; done).
    reflexivity.
  - change ((nv.1 +:+ "=" +:+ nv.2) ::
            ((fun nv0 : string * string => nv0.1 +:+ "=" +:+ nv0.2) <$> cookies))
      with ((fun nv0 : string * string => nv0.1 +:+ "=" +:+ nv0.2) <$> nv :: cookies).
    apply Forall_fmap, Forall_forall. intros [n v] Hin.
    rewrite forallb_forall in Hwf. specialize (Hwf (n, v)).
    rewrite <- list_elem_of_In in Hwf. specialize (Hwf Hin).
    unfold well_formed_cookie in Hwf. simpl in Hwf.
    apply andb_prop in Hwf as [Hnv Hv2]. apply andb_prop in Hnv as [Hnv Hv1].
    apply andb_prop in Hnv as [Hn1 Hn2].
    simpl. rewrite !lacks_append, Hn1, Hv1. reflexivity.
Qed.

Lemma cssVar_override (a : Ambient) (name fallback : string) :
  cssVar a name fallback =
  let v := trim (getPropertyValue a name) in
  if String.eqb v "" then fallback else v.
Proof. unfold cssVar. by destruct (trim (getPropertyValue a name)). Qed.

(** The text after a prefix, and [startsWith]. *)
Lemma after_prefix_Some (p s tail : string) :
  after_prefix p s = Some tail <-> s = p +:+ tail.
Proof.
  revert s. induction p as [|c p IH]; intros s.
  - change ("" +:+ tail) with tail. destruct s; simpl; split; congruence.
  - change (String c p +:+ tail) with (String c (p +:+ tail)).
    destruct s as [|d s]; simpl; [split; discriminate |].
    destruct (Ascii.eqb c d) eqn:E.
    + apply Ascii.eqb_eq in E as <-. rewrite IH. split; congruence.
    + split; [discriminate |]. intros [= <- _]. by rewrite Ascii.eqb_refl in E.
Qed.

Lemma startsWith_after_prefix (p s : string) :
  startsWith p s = match after_prefix p s with Some _ => true | None => false end.
Proof.
  unfold startsWith. revert s. induction p as [|c p IH]; intros [|d s]; simpl; try reflexivity.
  destruct (ascii_dec c d) as [<-|Hne].
  - rewrite Ascii.eqb_refl. apply IH.
  - destruct (Ascii.eqb c d) eqn:E; [| reflexivity].
    apply Ascii.eqb_eq in E. congruence.
Qed.

Lemma prefix_single (c : ascii) (s : string) :
  String.prefix (String c "") (String c s) = true.
Proof. simpl. destruct (ascii_dec c c); [by destruct s | done]. Qed.

(** The first piece of a split at a one-character separator. *)
Lemma split_go_first (c : ascii) (s : string) (cur : list ascii) :
  split_go (String c "") s 0 cur !! 0 =
  Some (string_of_list_ascii (rev cur ++ list_ascii_of_string (before_char c s))).
Proof.
  revert cur. induction s as [|d s IH]; intros cur.
  - simpl. by rewrite app_nil_r.
  - cbn [split_go before_char]. destruct (Ascii.eqb c d) eqn:E.
    + apply Ascii.eqb_eq in E as <-. rewrite prefix_single. simpl. by rewrite app_nil_r.
    + rewrite (prefix_lacks c "" d s E), IH. simpl. by rewrite <- app_assoc.
Qed.

(** In a row that starts with [color_scheme=], index 1 of its split at [=]
    is the text between that prefix and the next [=]. *)
Lemma split_row_value (tail : string) :
  split "=" ("color_scheme=" +:+ tail) !! 1 = Some (before_char "=" tail).
Proof.
  unfold split.
  change ("color_scheme=" +:+ tail) with ("color_scheme" +:+ String "=" tail).
  rewrite (split_go_piece "=" "") by reflexivity.
  cbn [split_go]. rewrite prefix_single.
  change (String.length "=" - 1) with 0. cbn [split_go lookup list_lookup].
  rewrite split_go_first. simpl. by rewrite string_of_list_ascii_of_string.
Qed.

Lemma lacks_before_char (c : ascii) (s : string) :
  lacks c s = true -> before_char c s = s.
Proof.
  induction s as [|d s IH]; [reflexivity |]. simpl. intros Hs.
  apply andb_prop in Hs as [Hd Hs]. apply negb_true_iff in Hd.
  by rewrite Hd, IH.
Qed.

(** What the source reads in a cookie header made of the rows [rows]. *)
Lemma cookie_color_scheme_rows (rows : list string) :
  Forall (fun row => lacks ";" row = true) rows ->
  cookie_color_scheme (join "; " rows) = cookie_read rows.
Proof.
  intros Hrows. destruct rows as [|row rows]; [reflexivity |].
  unfold cookie_color_scheme. rewrite (split_join ";" " ") by done.
  clear Hrows. generalize (row :: rows). clear row rows.
  intros l. induction l as [|row l IH]; [reflexivity |].
  cbn [find cookie_read]. rewrite startsWith_after_prefix.
  destruct (after_prefix "color_scheme=" row) as [tail|] eqn:E; [| exact IH].
  apply after_prefix_Some in E as ->. apply split_row_value.
Qed.

(** C7, as written, fails twice.  A cookie [color_scheme] whose value holds
    an [=] is not read whole: of [dark=1] the source keeps [dark], so the
    mode is dark although the value of the cookie is not ["dark"].  And a
    computed CSS value is not taken as it is: it is trimmed first, so a
    value of white space counts as unset and a padded one loses its
    padding. *)
Lemma theme_derivation_counterexample :
  ~ scheme_from_named_cookie /\ ~ variables_from_computed_value.
Proof.
  split.
  - intros Hclaim.
    specialize (Hclaim truncated_cookie_ambient
                  [("tz", "UTC"); ("color_scheme", "dark=1"); ("color_scheme", "light")]
                  eq_refl eq_refl).
    vm_compute in Hclaim. discriminate.
  - intros Hclaim. destruct (Hclaim dark_cookie_ambient) as [Hprimary _].
    vm_compute in Hprimary. discriminate.
Qed.

(** C7, amended.  For every cookie header, made of any rows without [;]
    joined by ["; "]: the colour scheme is the root's [colorScheme] data
    attribute when it is set and non-empty, else what the source reads in
    the first row that starts with [color_scheme=], namely the text after
    that prefix up to the next [=] (all of the value when it holds no [=]),
    when that is non-empty, else ["light"]; the mode is dark exactly when
    the scheme is ["dark"].  Each of the three theme-driven variables (brand
    colour, text colour, background colour) is the computed value of its CSS
    custom property with the white space around it trimmed, whenever the
    trimmed value is non-empty, whatever the mode, and else the hard-coded
    default of the mode. *)
Theorem theme_derivation :
  forall (a : Ambient) (rows : list string),
    Forall (fun row => lacks ";" row = true) rows ->
    cookie a = join "; " rows ->
    let scheme := first_truthy [colorScheme a; cookie_read rows] "light" in
    let dark := String.eqb scheme "dark" in
    let variable (name dark_default light_default : string) :=
      let v := trim (getPropertyValue a name) in
      if String.eqb v "" then (if dark then dark_default else light_default) else v in
    let vars := themeVariables (getMermaidThemeConfig a) in
    getOdooTheme a = scheme
    /\ primaryColor vars = variable "--o-brand-primary" "#4a90a4" "#714B67"
    /\ textColor vars = variable "--o-main-text-color" "#e5e7eb" "#374151"
    /\ mainBkg vars = variable "--o-view-background-color" "#374151" "#fff"
    /\ (forall (row value : string),
          row = "color_scheme=" +:+ value -> lacks "=" value = true ->
          cookie_read (row :: rows) = Some value).
Proof.
  intros a rows Hrows Hck scheme dark variable vars.
  assert (Hs : getOdooTheme a = scheme).
  { unfold getOdooTheme. rewrite Hck, cookie_color_scheme_rows by done.
    apply js_or_str_first_truthy. }
  split; [exact Hs |].
  unfold vars, getMermaidThemeConfig, variable. rewrite Hs. fold dark.
  rewrite !cssVar_override.
  assert (Hwhole : forall row value : string,
            row = "color_scheme=" +:+ value -> lacks "=" value = true ->
            cookie_read (row :: rows) = Some value).
  { intros row value -> Hv. cbn [cookie_read].
    rewrite (proj2 (after_prefix_Some "color_scheme=" _ value) eq_refl).
    by rewrite lacks_before_char. }
  destruct dark; repeat split; exact Hwhole.
Qed.

Lemma theme_derivation_witness :
  getOdooTheme css_cookie_ambient = "dark"
  /\ primaryColor (themeVariables (getMermaidThemeConfig css_cookie_ambient)) = "#017e84"
  /\ textColor (themeVariables (getMermaidThemeConfig css_cookie_ambient)) = "#e5e7eb"
  /\ mainBkg (themeVariables (getMermaidThemeConfig css_cookie_ambient)) = "#374151".
Proof.
  destruct (theme_derivation css_cookie_ambient
              ["token=YWJj=="; "color_scheme=dark"; "cids=1"]
              ltac:(repeat constructor) eq_refl)
    as (Hs & Hp & Ht & Hm & _).
  exact (conj Hs (conj Hp (conj Ht Hm))).
Defined.

(** ** The dependency loader *)

Lemma loader_inv_init : loader_inv loader_init.
Proof.
  split; simpl; [reflexivity | intros p Hp | intros p h Hp | done];
    by rewrite lookup_nil in Hp.
Qed.

Lemma lookup_snoc_Some {A : Type} (l : list A) (x y : A) (i : nat) :
  (l ++ [x]) !! i = Some y -> l !! i = Some y \/ (i = length l /\ y = x).
Proof.
  intros Hi. destruct (decide (i < length l)) as [Hlt | Hge].
  - left. by rewrite lookup_app_l in Hi.
  - right. rewrite lookup_app_r in Hi by lia.
    destruct (i - length l) as [|k] eqn:E; simpl in Hi; [| by rewrite lookup_nil in Hi].
    split; [lia | congruence].
Qed.

Lemma loadMermaid_inv (l l' : Loader) (r : LoadResult) :
  loader_inv l -> loadMermaid l = (l', r) -> loader_inv l'.
Proof.
  intros Hinv. unfold loadMermaid.
  destruct (mermaidModule l) as [h|] eqn:Em; [by intros [= <- _] |].
  destruct (mermaidLoadingPromise l) as [p|] eqn:El; [by intros [= <- _] |].
  destruct Hinv as [Hi Hp Hf Hk].
  intros [= <- _]. split; simpl.
  - rewrite length_app. simpl. lia.
  - intros p Hpend. apply lookup_snoc_Some in Hpend as [Hold | [-> _]].
    + destruct (Hp p Hold) as [_ Hmark]. congruence.
    + done.
  - intros p h Hful. apply lookup_snoc_Some in Hful as [Hold | [_ [=]]].
    pose proof (Hf p h Hold). congruence.
  - intros p [= <-] _. by rewrite lookup_app_r, Nat.sub_diag.
Qed.

Lemma import_settled_inv (a : Ambient) (p : nat) (o : ImportOutcome) (l l' : Loader) :
  loader_inv l -> import_settled a p o l = Some l' -> loader_inv l'.
Proof.
  intros [Hi Hp Hf Hk]. unfold import_settled.
  destruct (promises l !! p) as [[|v]|] eqn:Epend; [| done ..].
  destruct (Hp p Epend) as [Hm Hl].
  assert (Hlt : p < length (promises l)) by (by eapply lookup_lt_Some).
  assert (Hnone : forall v q, <[p := Fulfilled v]> (promises l) !! q = Some Pending -> False).
  { intros v q Hq. destruct (decide (p = q)) as [<- | Hne].
    - by rewrite list_lookup_insert_eq in Hq.
    - rewrite list_lookup_insert_ne in Hq by done.
      destruct (Hp q Hq) as [_ Hq']. congruence. }
  assert (Hsome : forall v q h, <[p := Fulfilled v]> (promises l) !! q = Some (Fulfilled (Some h)) ->
                                v = Some h).
  { intros v q h Hq. destruct (decide (p = q)) as [<- | Hne].
    - rewrite list_lookup_insert_eq in Hq by done. congruence.
    - rewrite list_lookup_insert_ne in Hq by done.
      rewrite (Hf q h Hq) in Hm. discriminate. }
  intros [= <-].
  destruct o as [e | [h|]]; [| destruct (initialize_throws h) as [e|] |];
    (split; simpl;
     [ by rewrite length_insert
     | intros q Hq; by destruct (Hnone _ _ Hq)
     | intros q h' Hq; apply Hsome in Hq; congruence
     | congruence ]).
Qed.

Lemma loader_step_inv (e : LoaderEvent) (l l' : Loader) (rs : list LoadResult) :
  loader_inv l -> loader_step e l = Some (l', rs) -> loader_inv l'.
Proof.
  intros Hinv. destruct e as [|a p o]; simpl.
  - destruct (loadMermaid l) as [l1 r] eqn:E. intros [= <- _].
    by eapply loadMermaid_inv.
  - destruct (import_settled a p o l) as [l1|] eqn:E; simpl; [| done].
    intros [= <- _]. by eapply import_settled_inv.
Qed.

Lemma loader_run_inv (es : list LoaderEvent) (l l' : Loader) (rs : list LoadResult) :
  loader_inv l -> loader_run es l = Some (l', rs) -> loader_inv l'.
Proof.
  revert l rs. induction es as [|e es IH]; intros l rs Hinv; simpl.
  - by intros [= <- _].
  - destruct (loader_step e l) as [[l1 rs1]|] eqn:E1; simpl; [| done].
    destruct (loader_run es l1) as [[l2 rs2]|] eqn:E2; simpl; [| done].
    intros [= <- _]. eapply IH; [| exact E2]. by eapply loader_step_inv.
Qed.

(** A settled promise keeps its value: whoever awaits it, whenever, gets
    the same result. *)
Lemma loader_step_fulfilled (e : LoaderEvent) (l l' : Loader) (rs : list LoadResult)
    (p : nat) (v : option Handle) :
  loader_step e l = Some (l', rs) ->
  promises l !! p = Some (Fulfilled v) -> promises l' !! p = Some (Fulfilled v).
Proof.
  destruct e as [|a q o]; simpl.
  - unfold loadMermaid.
    destruct (mermaidModule l); [by intros [= <- _] |].
    destruct (mermaidLoadingPromise l); intros [= <- _]; [done |].
    intros Hp. simpl. by apply lookup_app_l_Some.
  - unfold import_settled.
    destruct (promises l !! q) as [[|v']|] eqn:Eq; simpl; [| done ..].
    intros [= <- _] Hp.
    assert (q <> p) by congruence.
    destruct o as [e | [h|]]; [| destruct (initialize_throws h) |]; simpl;
      by rewrite list_lookup_insert_ne.
Qed.

Lemma loader_run_fulfilled (es : list LoaderEvent) (l l' : Loader) (rs : list LoadResult)
    (p : nat) (v : option Handle) :
  loader_run es l = Some (l', rs) ->
  promises l !! p = Some (Fulfilled v) -> promises l' !! p = Some (Fulfilled v).
Proof.
  revert l rs. induction es as [|e es IH]; intros l rs; simpl.
  - by intros [= <- _].
  - destruct (loader_step e l) as [[l1 rs1]|] eqn:E1; simpl; [| done].
    destruct (loader_run es l1) as [[l2 rs2]|] eqn:E2; simpl; [| done].
    intros [= <- _] Hp. eapply IH; [exact E2 |]. by eapply loader_step_fulfilled.
Qed.




(** When the [import] itself fails, or the module has no [default] export,
    the loader does what the specification says: the failure is logged, the
    caller is given [null], the marker is cleared and nothing is cached, so
    the next call starts a fresh load. *)
Lemma fetch_failure_retries (a : Ambient) (l : Loader) (p : nat) (o : ImportOutcome) :
  loader_inv l ->
  promises l !! p = Some Pending ->
  o = ImportResolved None \/ (exists e, o = ImportRejected e) ->
  exists l' e,
    import_settled a p o l = Some l'
    /\ console_error l' = ("Failed to load Mermaid:", e) :: console_error l
    /\ awaited l' (InFlight p) = Some None
    /\ mermaidLoadingPromise l' = None
    /\ mermaidModule l' = None
    /\ (loadMermaid l').2 = InFlight (length (promises l'))
    /\ imports (loadMermaid l').1 = MERMAID_CDN_URL :: imports l'.
Proof.
  intros Hinv Hpend Ho. destruct (inv_pending l Hinv p Hpend) as [Hm _].
  assert (Hlt : p < length (promises l)) by (by eapply lookup_lt_Some).
  unfold import_settled. rewrite Hpend.
  destruct Ho as [-> | [e ->]]; eexists _, _; (split; [reflexivity |]);
    unfold loadMermaid; simpl; rewrite ?Hm, list_lookup_insert_eq by done; done.
Qed.

(** C2 (the code departs from the claim).  When the module is fetched but
    its [initialize] throws, the failure is logged, the first caller is given
    [null] and the in-flight marker is cleared, as claimed; but
    [mermaidModule] was assigned before [initialize] ran and the [catch]
    block does not reset it.  The next call therefore starts no load: it
    returns at once the handle that was never initialised. *)
Theorem initialize_failure_caches_handle :
  forall (a : Ambient) (n : nat) (e : JsError),
    let h := {| hid := n; initialize_throws := Some e |} in
    exists l : Loader,
      loader_run [Called; Settled a 0 (ImportResolved (Some h))] loader_init
        = Some (l, [InFlight 0])
      /\ console_error l = [("Failed to load Mermaid:", e)]
      /\ awaited l (InFlight 0) = Some None
      /\ mermaidLoadingPromise l = None
      /\ mermaidModule l = Some h
      /\ loadMermaid l = (l, Ready h)
      /\ imports (loadMermaid l).1 = [MERMAID_CDN_URL]
      /\ config_in_force l h = None.
Proof.
  intros a n e h. eexists. split; [reflexivity |]. repeat split.
Qed.

(** ** The theme configuration and the render calls *)

(** Counterexample to C1: a diagram is rendered under the light theme, the
    theme turns dark, the diagram is rendered again: the library still works
    with the light configuration given to [initialize] when it was loaded. *)
Lemma theme_recomputed_on_render_counterexample :
  ~ @theme_recomputed_on_render plain_host.
Proof.
  intros Hclaim.
  eassert (Hrun : @run plain_host
    [HighlightCalled false;
     ImportSettled 0 (ImportResolved (Some loaded_handle));
     LoadAwaited 0 "1730000000000" "k3j9x2a";
     RenderSettled 0 (RenderResolved "<svg>1</svg>");
     AmbientChanged dark_ambient;
     HighlightCalled false]
    (world_init light_ambient (code_block "mermaid" "graph TD; A-->B") (Some ([], [7])))
    = Some _) by (vm_compute; reflexivity).
  match type of Hrun with
  | _ = Some ?w =>
      eassert (Hstep : @step plain_host (LoadAwaited 1 "1730000000999" "p0q8r7s") w = Some _)
        by (vm_compute; reflexivity)
  end.
  specialize (Hclaim _ _ _ _ _ _ _ _ _ loaded_handle
                (render_id "1730000000999" "p0q8r7s") "graph TD; A-->B" Hrun Hstep).
  vm_compute in Hclaim. specialize (Hclaim eq_refl). discriminate Hclaim.
Qed.

(** What one event of the component does to the loader: an import that
    settles runs the rest of the inner function; a [highlight] call or
    another component may call [loadMermaid]; everything else leaves the
    loader alone. *)
Lemma step_loader `{Host} (e : Event) (w w' : World) :
  step e w = Some w' ->
  match e with
  | ImportSettled p o => import_settled (ambient w) p o (loader w) = Some (loader w')
  | HighlightCalled _ | LoaderCalled =>
      loader w' = loader w \/ loader w' = (loadMermaid (loader w)).1
  | _ => loader w' = loader w
  end.
Proof.
  intros Hstep.
  destruct e as [a | h | focus | p o | t now rnd | t o | |]; simpl in Hstep.
  - by injection Hstep as <-.
  - by injection Hstep as <-.
  - injection Hstep as <-. unfold highlight.
    destruct (String.eqb _ _).
    + right. unfold _renderMermaidDiagram. by destruct (loadMermaid (loader w)).
    + left. destruct (_mermaidContainer w); by destruct (super_highlight _ _).
  - destruct (import_settled _ p o _) as [l|]; simpl in Hstep; [| done].
    by injection Hstep as <-.
  - destruct (tasks w !! t) as [[r | | |]|]; [| done ..].
    destruct (awaited (loader w) r) as [m|]; simpl in Hstep; [| done].
    injection Hstep as <-. unfold renderMermaidDiagram_loaded.
    destruct m; [| done].
    destruct (String.eqb _ _); by destruct (_mermaidContainer w).
  - destruct (tasks w !! t) as [[| | |]|]; [done | | done ..].
    injection Hstep as <-. unfold renderMermaidDiagram_rendered, assign_innerHTML.
    destruct o; by destruct (_mermaidContainer w).
  - destruct (_mermaidContainer w) as [c|]; [| done].
    destruct (click_listener c); [| done].
    injection Hstep as <-. unfold container_clicked. by destruct openCodeToolbar.
  - injection Hstep as <-. by right.
Qed.

Lemma loadMermaid_initialized (l : Loader) :
  initialized (loadMermaid l).1 = initialized l.
Proof.
  unfold loadMermaid. destruct (mermaidModule l); [done |].
  by destruct (mermaidLoadingPromise l).
Qed.

(** C1 (amended).  The theme configuration is computed by the loader, when
    the fetched library is initialised, from the theme signals of that
    moment: an event adds an [initialize] call exactly when it is a pending
    import settling with a module whose [initialize] returns.  Resuming a
    render passes the renderer an identifier and the text only and leaves the
    configuration in force as it was. *)
Theorem theme_fixed_at_load `{Host} :
  forall (e : Event) (w w' : World),
    step e w = Some w' ->
    initialized (loader w') = initialize_calls w e ++ initialized (loader w)
    /\ (forall t now rnd m, e = LoadAwaited t now rnd ->
          config_in_force (loader w') m = config_in_force (loader w) m).
Proof.
  intros e w w' Hstep.
  assert (Hinit : initialized (loader w') = initialize_calls w e ++ initialized (loader w)).
  { apply step_loader in Hstep.
    destruct e as [a | h | focus | p o | t now rnd | t o | |]; simpl;
      try (by rewrite Hstep);
      try (destruct Hstep as [-> | ->]; [done | apply loadMermaid_initialized]).
    unfold import_settled in Hstep.
    destruct (promises (loader w) !! p) as [[|v]|]; [| done ..].
    injection Hstep as <-.
    destruct o as [e | [h|]]; [| destruct (initialize_throws h) |]; reflexivity. }
  split; [exact Hinit |].
  intros t now rnd m ->. unfold config_in_force. by rewrite Hinit.
Qed.

Lemma theme_fixed_at_load_witness :
  exists w' : World,
    @step plain_host (ImportSettled 0 (ImportResolved (Some loaded_handle))) first_highlight
      = Some w'
    /\ initialized (loader w') =
         [(loaded_handle, initialize_argument (getMermaidThemeConfig light_ambient))].
Proof.
  eexists. split.
  - vm_compute. reflexivity.
  - apply (@theme_fixed_at_load plain_host
             (ImportSettled 0 (ImportResolved (Some loaded_handle))) first_highlight).
    vm_compute. reflexivity.
Defined.

(** ** Blank text *)

(** Counterexample to C4, on a diagram block holding two spaces.  The first
    [highlight] call already starts the load; and when the import is
    rejected, the activation writes the load-failure text and creates no
    container, so no placeholder is shown. *)
Lemma blank_text_counterexample :
  ~ @blank_skips_loader plain_host /\ ~ @blank_shows_placeholder plain_host.
Proof.
  split; intros Hclaim.
  - specialize (Hclaim light_ambient (code_block "mermaid" "  ") None [] _ false
                  eq_refl eq_refl eq_refl).
    vm_compute in Hclaim. discriminate Hclaim.
  - eassert (Hrun : @run plain_host
      [HighlightCalled false; ImportSettled 0 (ImportRejected (mkJsError (Some "net")))]
      (world_init light_ambient (code_block "mermaid" "  ") None) = Some _)
      by (vm_compute; reflexivity).
    match type of Hrun with
    | _ = Some ?w =>
        eassert (Hstep : @step plain_host (LoadAwaited 0 "1" "a") w = Some _)
          by (vm_compute; reflexivity)
    end.
    specialize (Hclaim _ _ _ _ _ _ _ _ _ Hrun eq_refl eq_refl Hstep) as [Hc _].
    vm_compute in Hc. discriminate Hc.
Qed.

(** What resuming an activation leaves of the world when the load failed or
    the text is blank. *)
Lemma loaded_without_render (t : nat) (m : option Handle) (now rnd : string) (w : World) :
  trim (resolve_value (host w)) = "" \/ m = None ->
  let w' := renderMermaidDiagram_loaded t m now rnd w in
  render_calls w' = render_calls w
  /\ tasks w' = <[t := Returned]> (tasks w)
  /\ match m with
     | Some _ => innerHTML <$> _mermaidContainer w' = Some PLACEHOLDER_HTML
     | None =>
         _mermaidContainer w' = _mermaidContainer w
         /\ pre_textContent <$> pre (host w') = (fun _ => LOAD_FAILED_TEXT) <$> pre (host w)
     end.
Proof.
  intros Hblank. unfold renderMermaidDiagram_loaded.
  destruct m as [h|].
  - destruct Hblank as [Hblank | [=]]. cbv zeta. rewrite Hblank.
    simpl. destruct (_mermaidContainer w) eqn:E; simpl; rewrite ?E; repeat split.
  - simpl. repeat split. by destruct (pre (host w)).
Qed.

(** C4 (amended).  A [highlight] call with the diagram language calls the
    loader first, whatever the text: it only starts an activation suspended
    on the loader's answer.  When an activation resumes and the trimmed text
    is empty, the renderer is not called; if the loader gave a handle the
    container shows the placeholder, and if the load failed the fixed
    load-failure text is written to [pre] and the container is left as it
    was. *)
Theorem blank_text_after_load `{Host} :
  forall (w : World) (focus : bool),
    resolve_languageId (host w) = "mermaid" ->
    (highlight focus w).1 = _renderMermaidDiagram w
    /\ loader (highlight focus w).1 = (loadMermaid (loader w)).1
    /\ tasks (highlight focus w).1 = tasks w ++ [AwaitLoad (loadMermaid (loader w)).2]
    /\ render_calls (highlight focus w).1 = render_calls w
    /\ forall (w2 : World) (t : nat) (r : LoadResult) (m : option Handle) (now rnd : string),
         tasks w2 !! t = Some (AwaitLoad r) ->
         awaited (loader w2) r = Some m ->
         trim (resolve_value (host w2)) = "" ->
         exists w3 : World,
           step (LoadAwaited t now rnd) w2 = Some w3
           /\ render_calls w3 = render_calls w2
           /\ tasks w3 !! t = Some Returned
           /\ match m with
              | Some _ => innerHTML <$> _mermaidContainer w3 = Some PLACEHOLDER_HTML
              | None =>
                  _mermaidContainer w3 = _mermaidContainer w2
                  /\ pre_textContent <$> pre (host w3) =
                       (fun _ => LOAD_FAILED_TEXT) <$> pre (host w2)
              end.
Proof.
  intros w focus Hlang.
  assert (Hcall : (highlight focus w).1 = _renderMermaidDiagram w).
  { unfold highlight. by rewrite Hlang. }
  rewrite Hcall. unfold _renderMermaidDiagram.
  destruct (loadMermaid (loader w)) as [l r0] eqn:Eload.
  repeat split.
  intros w2 t r m now rnd Htask Hawait Hblank.
  exists (renderMermaidDiagram_loaded t m now rnd w2).
  split; [simpl; by rewrite Htask, Hawait |].
  destruct (loaded_without_render t m now rnd w2 (or_introl Hblank)) as (Hr & Ht & Hm).
  split; [exact Hr |]. split; [| exact Hm].
  rewrite Ht. apply list_lookup_insert_eq. by eapply lookup_lt_Some.
Qed.

Lemma blank_text_after_load_witness :
  resolve_languageId (host blank_block) = "mermaid"
  /\ imports (loader (@highlight plain_host false blank_block).1) = [MERMAID_CDN_URL]
  /\ tasks (@highlight plain_host false blank_block).1 = [AwaitLoad (InFlight 0)].
Proof.
  split; [reflexivity |].
  destruct (@blank_text_after_load plain_host blank_block false eq_refl)
    as (_ & Hl & Ht & _).
  split; [by rewrite Hl | by rewrite Ht].
Defined.

(** ** Leaving the diagram language *)

Lemma remove_node_not_elem (id : nat) (s : Siblings) :
  ContainerNode id ∉ (previousSiblings (remove_node id s) ++ nextSiblings (remove_node id s)).
Proof.
  unfold remove_node. simpl. rewrite elem_of_app, !list_elem_of_filter. simpl.
  rewrite Nat.eqb_refl. simpl. tauto.
Qed.

Lemma highlight_other_clears `{Host} (w : World) (focus : bool) :
  resolve_languageId (host w) <> "mermaid" ->
  _mermaidContainer (highlight focus w).1 = None.
Proof.
  intros Hlang. apply String.eqb_neq in Hlang. unfold highlight. rewrite Hlang.
  destruct (_mermaidContainer w) as [c|] eqn:Ec.
  - by destruct (super_highlight focus (host (remove_container c w))).
  - by destruct (super_highlight focus (host w)).
Qed.

(** C5.  A [highlight] call whose language is not the diagram language: if
    the component holds a container, the container is taken out of the
    document, the reference is cleared and the [display] of [pre] and of the
    textarea is reset to the empty string; without a container nothing of
    that is done.  Then the host's own [highlight] is run with the same focus
    flag on the component, whose language, text and state were not touched,
    and its result is returned as it is.  The loader, the suspended
    activations and the render calls are left alone. *)
Theorem highlight_other_language `{Host} :
  forall (w : World) (focus : bool),
    resolve_languageId (host w) <> "mermaid" ->
    let cleaned := match _mermaidContainer w with
                   | Some _ => set_display "" (host w)
                   | None => host w
                   end in
    let w' := (highlight focus w).1 in
    _mermaidContainer w' = None
    /\ (forall c, _mermaidContainer w = Some c ->
          pre_parentNode w' = remove_node (cid c) <$> pre_parentNode w
          /\ (ContainerNode (cid c) ∉ siblings w')
          /\ pre_display <$> pre cleaned = (fun _ => "") <$> pre (host w)
          /\ textarea_display <$> textarea cleaned = (fun _ => "") <$> textarea (host w))
    /\ (_mermaidContainer w = None -> pre_parentNode w' = pre_parentNode w)
    /\ (embeddedState cleaned = embeddedState (host w)
        /\ props cleaned = props (host w)
        /\ state cleaned = state (host w)
        /\ textarea_value <$> textarea cleaned = textarea_value <$> textarea (host w)
        /\ pre_textContent <$> pre cleaned = pre_textContent <$> pre (host w))
    /\ host w' = (super_highlight focus cleaned).1
    /\ (highlight focus w).2 = Some (super_highlight focus cleaned).2
    /\ loader w' = loader w
    /\ tasks w' = tasks w
    /\ render_calls w' = render_calls w.
Proof.
  intros w focus Hlang cleaned w'.
  apply String.eqb_neq in Hlang.
  unfold w', cleaned, highlight. rewrite Hlang.
  destruct (_mermaidContainer w) as [c|] eqn:Ec.
  - destruct (super_highlight focus (host (remove_container c w))) as [hv r] eqn:Es.
    simpl in Es. rewrite Es. simpl.
    split; [reflexivity |]. split.
    { intros c' [= <-]. split; [reflexivity |]. split.
      - unfold siblings. simpl. destruct (pre_parentNode w) as [s|]; simpl.
        + apply remove_node_not_elem.
        + apply not_elem_of_nil.
      - split; [by destruct (pre (host w)) | by destruct (textarea (host w))]. }
    split; [done |]. split; [| done].
    repeat split; [by destruct (textarea (host w)) | by destruct (pre (host w))].
  - destruct (super_highlight focus (host w)) as [hv r] eqn:Es. simpl.
    repeat split; done.
Qed.

Lemma highlight_other_language_witness :
  (cid <$> _mermaidContainer rendered_then_python = Some 0
   /\ siblings rendered_then_python = [ContainerNode 0; OtherNode 7])
  /\ _mermaidContainer (@highlight plain_host true rendered_then_python).1 = None
  /\ siblings (@highlight plain_host true rendered_then_python).1 = [OtherNode 7]
  /\ (@highlight plain_host true rendered_then_python).2 = Some true.
Proof.
  split; [split; vm_compute; reflexivity |].
  assert (Hlang : resolve_languageId (host rendered_then_python) <> "mermaid")
    by (vm_compute; discriminate).
  destruct (@highlight_other_language plain_host rendered_then_python true Hlang)
    as (Hc & _ & _ & _ & _ & Hr & _).
  split; [exact Hc |]. split; [vm_compute; reflexivity |].
  rewrite Hr. vm_compute. reflexivity.
Defined.

(** ** A render that fails *)

Lemma error_html_contains (msg : string) :
  exists before after : string, error_html msg = before +:+ msg +:+ after.
Proof.
  exists ("<div style=" +:+ dq +:+ "color: #dc3545; padding: 0.5rem;" +:+ dq +:+ ">" +:+ nl +:+
          "                <strong>Mermaid syntax error:</strong><br>" +:+ nl +:+
          "                <small>"),
         ("</small>" +:+ nl +:+ "            </div>").
  reflexivity.
Qed.

(** The state in which an activation is suspended on the renderer. *)
Lemma loaded_with_render (t : nat) (m : Handle) (now rnd : string) (w : World) :
  trim (resolve_value (host w)) <> "" ->
  let w' := renderMermaidDiagram_loaded t (Some m) now rnd w in
  render_calls w' = (m, render_id now rnd, trim (resolve_value (host w))) :: render_calls w
  /\ tasks w' = <[t := AwaitRender m (render_id now rnd) (trim (resolve_value (host w)))]> (tasks w)
  /\ (exists c, _mermaidContainer w' = Some c /\ style_display c = "flex"
                /\ match _mermaidContainer w with
                   | Some c0 => cid c = cid c0 /\ innerHTML c = innerHTML c0
                   | None => cid c = created w /\ innerHTML c = ""
                   end)
  /\ host w' = set_display "none" (host w).
Proof.
  intros Htext. apply String.eqb_neq in Htext.
  unfold renderMermaidDiagram_loaded. cbv zeta. rewrite Htext.
  destruct (_mermaidContainer w) as [c0|] eqn:Ec; simpl; rewrite ?Ec; simpl.
  - repeat split. eexists. repeat split.
  - repeat split. eexists. repeat split.
Qed.

(** C6, as written, fails.  The language of the block is changed while the
    renderer works; the next [highlight] call removes the container and
    shows [pre] and the textarea again; when the render call then fails,
    the [catch] block finds no container to write to: no error message is
    shown anywhere, the activation ends by throwing, and the elements are
    not hidden. *)
Lemma render_failure_shown_counterexample : ~ @render_failure_always_shown plain_host.
Proof.
  intros Hclaim.
  eassert (Hrun : @run plain_host language_switched_during_render
                    (world_init light_ambient (code_block "mermaid" "graph TD; A-->B")
                       (Some ([], [7]))) = Some _)
    by (vm_compute; reflexivity).
  match type of Hrun with
  | _ = Some ?w =>
      eassert (Hstep : @step plain_host (RenderSettled 0 (RenderRejected parse_error)) w = Some _)
        by (vm_compute; reflexivity)
  end.
  destruct (Hclaim _ _ _ _ _ _ 0 loaded_handle _ _ parse_error Hrun
              ltac:(vm_compute; reflexivity) Hstep) as [Hshown _].
  vm_compute in Hshown. discriminate.
Qed.

(** C6, amended.  When the render call of an activation fails while the
    component holds a container, the content of that container becomes the
    inline error message, which contains the [message] of the failure, or
    ["Invalid syntax"] when it has none or an empty one; nothing else of
    the component changes, so [pre] and the textarea stay as they were, and
    the activation returns.  And the component does hold a container, shown,
    with [pre] and the textarea hidden, when the renderer is called: an
    activation that resumes with a handle and a text that is not blank
    hides them, shows the container and calls the renderer, so a rejection
    that comes next leaves the error message in the container and [pre] and
    the textarea hidden. *)
Theorem render_failure_shown `{Host} :
  forall (t : nat) (m : Handle) (e : JsError),
    let msg := first_truthy [message e] "Invalid syntax" in
    (forall (w : World) (c : Container) (id text : string),
       tasks w !! t = Some (AwaitRender m id text) ->
       _mermaidContainer w = Some c ->
       exists w' : World,
         step (RenderSettled t (RenderRejected e)) w = Some w'
         /\ w' = with_tasks (<[t := Returned]> (tasks w))
                   (with_container (Some (set_innerHTML (error_html msg) c)) w)
         /\ innerHTML <$> _mermaidContainer w' = Some (error_html msg)
         /\ (exists before after : string, error_html msg = before +:+ msg +:+ after)
         /\ host w' = host w
         /\ pre_parentNode w' = pre_parentNode w
         /\ tasks w' !! t = Some Returned)
    /\ (forall (w : World) (r : LoadResult) (now rnd : string),
          tasks w !! t = Some (AwaitLoad r) ->
          awaited (loader w) r = Some (Some m) ->
          trim (resolve_value (host w)) <> "" ->
          exists (w1 w2 : World) (c : Container),
            step (LoadAwaited t now rnd) w = Some w1
            /\ render_calls w1 =
                 (m, render_id now rnd, trim (resolve_value (host w))) :: render_calls w
            /\ tasks w1 !! t =
                 Some (AwaitRender m (render_id now rnd) (trim (resolve_value (host w))))
            /\ (exists c1, _mermaidContainer w1 = Some c1 /\ style_display c1 = "flex")
            /\ pre_display <$> pre (host w1) = (fun _ => "none") <$> pre (host w)
            /\ textarea_display <$> textarea (host w1) = (fun _ => "none") <$> textarea (host w)
            /\ step (RenderSettled t (RenderRejected e)) w1 = Some w2
            /\ _mermaidContainer w2 = Some c
            /\ innerHTML c = error_html msg
            /\ style_display c = "flex"
            /\ pre_display <$> pre (host w2) = (fun _ => "none") <$> pre (host w)
            /\ textarea_display <$> textarea (host w2) = (fun _ => "none") <$> textarea (host w)
            /\ tasks w2 !! t = Some Returned).
Proof.
  intros t m e msg.
  assert (Hmsg : js_or_str (message e) "Invalid syntax" = msg).
  { unfold msg. by destruct (message e) as [[|? ?]|]. }
  assert (Hsettle : forall (w : World) (c : Container) (id text : string),
            tasks w !! t = Some (AwaitRender m id text) ->
            _mermaidContainer w = Some c ->
            step (RenderSettled t (RenderRejected e)) w =
              Some (with_tasks (<[t := Returned]> (tasks w))
                      (with_container (Some (set_innerHTML (error_html msg) c)) w))).
  { intros w c id text Htask Hc. simpl. rewrite Htask.
    unfold renderMermaidDiagram_rendered, assign_innerHTML. by rewrite Hc, Hmsg. }
  split.
  - intros w c id text Htask Hc.
    assert (Hlt : t < length (tasks w)) by (by eapply lookup_lt_Some).
    eexists. split; [by eapply Hsettle |]. split; [reflexivity |].
    split; [reflexivity |]. split; [apply error_html_contains |].
    split; [reflexivity |]. split; [reflexivity |].
    cbn [tasks with_tasks]. by apply list_lookup_insert_eq.
  - intros w r now rnd Htask Hawait Htext.
    assert (Hlt : t < length (tasks w)) by (by eapply lookup_lt_Some).
    destruct (loaded_with_render t m now rnd w Htext)
      as (Hcalls & Htasks & (c & Hc & Hd & _) & Hhost).
    assert (Htask1 : tasks (renderMermaidDiagram_loaded t (Some m) now rnd w) !! t =
              Some (AwaitRender m (render_id now rnd) (trim (resolve_value (host w))))).
    { rewrite Htasks. by apply list_lookup_insert_eq. }
    assert (Hpre : pre_display <$> pre (set_display "none" (host w)) =
                   (fun _ => "none") <$> pre (host w))
      by (simpl; by destruct (pre (host w))).
    assert (Htx : textarea_display <$> textarea (set_display "none" (host w)) =
                  (fun _ => "none") <$> textarea (host w))
      by (simpl; by destruct (textarea (host w))).
    exists (renderMermaidDiagram_loaded t (Some m) now rnd w).
    eexists. exists (set_innerHTML (error_html msg) c).
    split; [simpl; by rewrite Htask, Hawait |].
    split; [exact Hcalls |]. split; [exact Htask1 |].
    split; [by exists c |].
    split; [by rewrite Hhost |]. split; [by rewrite Hhost |].
    split; [by eapply Hsettle |].
    cbn [_mermaidContainer host tasks with_tasks with_container set_innerHTML innerHTML
         style_display].
    split; [reflexivity |]. split; [reflexivity |]. split; [exact Hd |].
    split; [by rewrite Hhost |]. split; [by rewrite Hhost |].
    rewrite Htasks, list_insert_insert_eq. by apply list_lookup_insert_eq.
Qed.

Lemma render_failure_shown_witness :
  exists (w2 : World) (c : Container),
    @run plain_host
      [LoadAwaited 0 "1730000000000" "k3j9x2a"; RenderSettled 0 (RenderRejected parse_error)]
      library_loaded = Some w2
    /\ _mermaidContainer w2 = Some c
    /\ innerHTML c = error_html "Parse error on line 1"
    /\ pre_display <$> pre (host w2) = Some "none"
    /\ textarea_display <$> textarea (host w2) = Some "none".
Proof.
  assert (Htask : tasks library_loaded !! 0 = Some (AwaitLoad (InFlight 0)))
    by (vm_compute; reflexivity).
  assert (Hawait : awaited (loader library_loaded) (InFlight 0) = Some (Some loaded_handle))
    by (vm_compute; reflexivity).
  assert (Htext : trim (resolve_value (host library_loaded)) <> "")
    by (vm_compute; discriminate).
  destruct (proj2 (@render_failure_shown plain_host 0 loaded_handle parse_error)
              library_loaded (InFlight 0) "1730000000000" "k3j9x2a" Htask Hawait Htext)
    as (w1 & w2 & c & H1 & _ & _ & _ & _ & _ & H2 & Hc & Hhtml & _ & Hpre & Htx & _).
  exists w2, c. split.
  - cbn [run]. rewrite H1. cbn [mbind option_bind]. rewrite H2. reflexivity.
  - split; [exact Hc |]. split; [exact Hhtml |]. split; [exact Hpre | exact Htx].
Defined.

(** ** The container *)

Lemma container_life_same `{Host} (e : Event) (w w' : World) :
  _mermaidContainer w' = _mermaidContainer w ->
  created w' = created w ->
  pre_parentNode w' = pre_parentNode w ->
  container_life e w w'.
Proof.
  unfold container_life. intros -> -> ->. by destruct (_mermaidContainer w).
Qed.

Lemma step_container_life `{Host} (e : Event) (w w' : World) :
  step e w = Some w' -> container_life e w w'.
Proof.
  intros Hstep.
  destruct e as [a | h | focus | p o | t now rnd | t o | |]; simpl in Hstep.
  - injection Hstep as <-. by apply container_life_same.
  - injection Hstep as <-. by apply container_life_same.
  - injection Hstep as <-. unfold highlight.
    destruct (String.eqb _ _) eqn:Elang.
    + unfold _renderMermaidDiagram. destruct (loadMermaid (loader w)).
      by apply container_life_same.
    + apply String.eqb_neq in Elang. unfold container_life.
      destruct (_mermaidContainer w) as [c|] eqn:Ec.
      * destruct (super_highlight focus (host (remove_container c w))). simpl.
        split; [by exists focus | done].
      * destruct (super_highlight focus (host w)). simpl. by rewrite Ec.
  - destruct (import_settled _ p o _); simpl in Hstep; [| done].
    injection Hstep as <-. by apply container_life_same.
  - destruct (tasks w !! t) as [[r | | |]|] eqn:Et; [| done ..].
    destruct (awaited (loader w) r) as [m|] eqn:Ea; simpl in Hstep; [| done].
    injection Hstep as <-. destruct m as [m|]; [| by apply container_life_same].
    unfold container_life, renderMermaidDiagram_loaded. cbv zeta.
    destruct (_mermaidContainer w) as [c|] eqn:Ec.
    + destruct (String.eqb _ _); simpl; rewrite Ec; done.
    + destruct (String.eqb _ _); simpl;
        (split; [by exists t, now, rnd, r, m |]);
        destruct (pre (host w)), (pre_parentNode w); done.
  - destruct (tasks w !! t) as [[| | |]|]; [done | | done ..].
    injection Hstep as <-. unfold renderMermaidDiagram_rendered, assign_innerHTML.
    unfold container_life.
    destruct o; destruct (_mermaidContainer w) as [c|] eqn:Ec; simpl; rewrite ?Ec; done.
  - destruct (_mermaidContainer w) as [c|] eqn:Ec; [| done].
    destruct (click_listener c); [| done].
    injection Hstep as <-. unfold container_clicked.
    destruct openCodeToolbar; by apply container_life_same.
  - injection Hstep as <-. by apply container_life_same.
Qed.

Lemma no_container_filter (l : list Node) :
  (forall id, ContainerNode id ∉ l) ->
  filter (fun n => is_container_node n = true) l = [].
Proof.
  intros Hno. induction l as [|n l IH]; [reflexivity |].
  destruct n as [id | id].
  - destruct (Hno id). apply list_elem_of_here.
  - rewrite filter_cons_False by (intros [=]).
    apply IH. intros id' Hin. apply (Hno id'). by apply list_elem_of_further.
Qed.

Lemma container_inv_init (a : Ambient) (h : HostView) (s : option (list nat * list nat)) :
  container_inv (world_init a h s).
Proof.
  assert (Hno : forall id, ContainerNode id ∉ siblings (world_init a h s)).
  { intros id. unfold siblings. destruct s as [[b f]|]; simpl; [| apply not_elem_of_nil].
    rewrite elem_of_app, !list_elem_of_fmap. intros [(x & [=] & _) | (x & [=] & _)]. }
  split.
  - intros id Hin. by destruct (Hno id).
  - unfold attached_containers. rewrite no_container_filter by done. simpl. lia.
Qed.

Lemma container_life_inv `{Host} (e : Event) (w w' : World) :
  container_life e w w' -> container_inv w -> container_inv w'.
Proof.
  unfold container_life. intros Hlife [Hheld Honce].
  assert (Hnone : _mermaidContainer w = None -> forall id, ContainerNode id ∉ siblings w).
  { intros Ec id Hin. apply Hheld in Hin. by rewrite Ec in Hin. }
  destruct (_mermaidContainer w) as [c|] eqn:Ec, (_mermaidContainer w') as [c'|] eqn:Ec'.
  - destruct Hlife as (Hid & _ & Hdom).
    split; unfold attached_containers, siblings in *; rewrite Hdom, ?Ec'; simpl.
    + intros id Hin. rewrite Hid. by apply Hheld.
    + exact Honce.
  - destruct Hlife as (_ & _ & Hdom).
    assert (Hno : forall id, ContainerNode id ∉ siblings w').
    { intros id Hin. unfold siblings in *. rewrite Hdom in Hin.
      destruct (pre_parentNode w) as [s|]; simpl in *; [| by apply not_elem_of_nil in Hin].
      assert (Hin' : ContainerNode id ∈ previousSiblings s ++ nextSiblings s).
      { rewrite elem_of_app in *. rewrite !list_elem_of_filter in Hin. tauto. }
      apply Hheld in Hin'. injection Hin' as <-.
      by apply (remove_node_not_elem (cid c) s). }
    split.
    + intros id Hin. by destruct (Hno id).
    + unfold attached_containers. rewrite no_container_filter by done. simpl. lia.
  - destruct Hlife as (_ & Hid & _ & Hdom).
    specialize (Hnone eq_refl).
    assert (Hsib : siblings w' = siblings w \/
                   exists s, pre_parentNode w = Some s /\
                     siblings w' = previousSiblings s ++ ContainerNode (cid c') :: nextSiblings s).
    { unfold siblings. rewrite Hdom.
      destruct (pre (host w)); [| by left].
      destruct (pre_parentNode w) as [s|]; [right; by exists s | by left]. }
    destruct Hsib as [Hsib | (s & Hs & Hsib)].
    + split.
      * intros id Hin. rewrite Hsib in Hin. by destruct (Hnone id).
      * unfold attached_containers. rewrite Hsib, no_container_filter; [simpl; lia | done].
    + assert (Hp : forall id, ContainerNode id ∉ previousSiblings s).
      { intros id Hin. apply (Hnone id). unfold siblings. rewrite Hs.
        apply elem_of_app. by left. }
      assert (Hn : forall id, ContainerNode id ∉ nextSiblings s).
      { intros id Hin. apply (Hnone id). unfold siblings. rewrite Hs.
        apply elem_of_app. by right. }
      split.
      * intros id Hin. rewrite Hsib in Hin.
        apply elem_of_app in Hin as [Hin | Hin]; [by destruct (Hp id) |].
        apply elem_of_cons in Hin as [[= ->] | Hin];
          [by rewrite Ec' | by destruct (Hn id)].
      * unfold attached_containers. rewrite Hsib, filter_app, filter_cons_True by done.
        rewrite !no_container_filter by done. simpl. lia.
  - destruct Hlife as (_ & Hdom).
    specialize (Hnone eq_refl).
    split; unfold attached_containers, siblings in *; rewrite Hdom.
    + intros id Hin. by destruct (Hnone id).
    + exact Honce.
Qed.

Lemma run_container_inv `{Host} (es : list Event) (w w' : World) :
  container_inv w -> run es w = Some w' -> container_inv w'.
Proof.
  revert w. induction es as [|e es IH]; intros w Hinv; simpl.
  - by intros [= <-].
  - destruct (step e w) as [w1|] eqn:E1; simpl; [| done].
    apply IH. eapply container_life_inv; [| exact Hinv]. by apply step_container_life.
Qed.

(** C8.  In every state the component can reach there is at most one
    container in the document around [pre], and it is the one the component
    holds.  Along any event the container is: created, only by an activation
    that resumes with a handle while the component holds none, and then put
    right after [pre] when [pre] has a parent; or kept, the same element, in
    its place; or removed from the document with the reference cleared, only
    by a [highlight] call whose language is not the diagram language.  An
    activation that resumes with a handle always leaves a container held. *)
Theorem at_most_one_container `{Host} :
  forall (a : Ambient) (h0 : HostView) (s : option (list nat * list nat))
         (es : list Event) (w : World),
    run es (world_init a h0 s) = Some w ->
    length (attached_containers w) <= 1
    /\ (forall id, ContainerNode id ∈ siblings w -> cid <$> _mermaidContainer w = Some id)
    /\ (forall e w', step e w = Some w' ->
          container_life e w w'
          /\ length (attached_containers w') <= 1
          /\ (forall t now rnd r m,
                e = LoadAwaited t now rnd -> tasks w !! t = Some (AwaitLoad r) ->
                awaited (loader w) r = Some (Some m) ->
                is_Some (_mermaidContainer w'))
          /\ (forall focus,
                e = HighlightCalled focus -> resolve_languageId (host w) <> "mermaid" ->
                _mermaidContainer w' = None /\ attached_containers w' = [])).
Proof.
  intros a h0 s es w Hrun.
  assert (Hinv : container_inv w)
    by (eapply run_container_inv; [apply container_inv_init | exact Hrun]).
  split; [apply (inv_once w Hinv) |]. split; [apply (inv_held w Hinv) |].
  intros e w' Hstep.
  assert (Hlife : container_life e w w') by (by apply step_container_life).
  assert (Hinv' : container_inv w') by (by eapply container_life_inv).
  split; [exact Hlife |]. split; [apply (inv_once w' Hinv') |]. split.
  - intros t now rnd r m -> Ht Ha.
    assert (Hw : w' = renderMermaidDiagram_loaded t (Some m) now rnd w).
    { unfold step in Hstep. rewrite Ht, Ha in Hstep. by injection Hstep. }
    clear Hstep Hlife Hinv'. subst w'.
    destruct (String.eqb_spec (trim (resolve_value (host w))) "") as [Hb | Hb].
    + destruct (loaded_without_render t (Some m) now rnd w (or_introl Hb)) as (_ & _ & Hc).
      destruct (_mermaidContainer (renderMermaidDiagram_loaded t (Some m) now rnd w));
        [by eexists | discriminate Hc].
    + destruct (loaded_with_render t m now rnd w Hb) as (_ & _ & (c & -> & _) & _).
      by eexists.
  - intros focus -> Hlang. simpl in Hstep. injection Hstep as <-.
    pose proof (highlight_other_clears w focus Hlang) as Hc.
    split; [exact Hc |].
    unfold attached_containers. apply no_container_filter.
    intros id Hin. apply (inv_held _ Hinv') in Hin. by rewrite Hc in Hin.
Qed.

Lemma at_most_one_container_witness :
  exists w : World,
    @run plain_host rendered_twice
      (world_init light_ambient (code_block "mermaid" "graph TD; A-->B") (Some ([], [7])))
      = Some w
    /\ siblings w = [ContainerNode 0; OtherNode 7]
    /\ length (attached_containers w) <= 1.
Proof.
  eassert (Hrun : @run plain_host rendered_twice
      (world_init light_ambient (code_block "mermaid" "graph TD; A-->B") (Some ([], [7])))
      = Some _) by (vm_compute; reflexivity).
  eexists. split; [exact Hrun |]. split; [reflexivity |].
  exact (proj1 (@at_most_one_container plain_host _ _ _ _ _ Hrun)).
Defined.

(** Outside C6 and C8, the stale update the specification warns of: when the
    language was switched away while the renderer was working, the component
    holds no container any more; the end of the render call then finds
    nothing to write to and the activation ends with a [TypeError], whatever
    the outcome of the call. *)
Lemma render_settled_without_container `{Host} (w : World) (t : nat) (m : Handle)
    (id text : string) (o : RenderOutcome) :
  tasks w !! t = Some (AwaitRender m id text) ->
  _mermaidContainer w = None ->
  step (RenderSettled t o) w =
    Some (with_tasks (<[t := Threw TypeError_innerHTML]> (tasks w)) w).
Proof.
  intros Ht Hc. simpl. rewrite Ht.
  unfold renderMermaidDiagram_rendered, assign_innerHTML. rewrite Hc. by destruct o.
Qed.

(** ** The loader inside the component *)

(** Every event of the component drives the loader by one of its own
    events, or leaves it alone, so what was shown of the loader on its own
    holds of the loader of every component. *)
Lemma step_loader_inv `{Host} (e : Event) (w w' : World) :
  step e w = Some w' -> loader_inv (loader w) -> loader_inv (loader w').
Proof.
  intros Hstep Hinv. apply step_loader in Hstep.
  destruct e as [a | h | focus | p o | t now rnd | t o | |];
    try (by rewrite Hstep);
    try (destruct Hstep as [-> | ->];
         [done | eapply loadMermaid_inv; [exact Hinv | apply surjective_pairing]]).
  by eapply import_settled_inv.
Qed.

(* ================================================================= *)
(** * Part III.  Further properties of the source                      *)
(* ================================================================= *)

(** ** The theme adapter *)

(** X1.  The theme configuration depends on the ambient state through the
    mode and the trimmed values of the three custom properties only: two
    ambient states that agree on those give the same configuration, whatever
    else differs (the scheme's spelling when it is not ["dark"], where the
    scheme was read from, white space around the values, other properties). *)
Theorem theme_config_inputs :
  forall a1 a2 : Ambient,
    String.eqb (getOdooTheme a1) "dark" = String.eqb (getOdooTheme a2) "dark" ->
    (forall name,
        In name ["--o-brand-primary"; "--o-main-text-color"; "--o-view-background-color"] ->
        trim (getPropertyValue a1 name) = trim (getPropertyValue a2 name)) ->
    getMermaidThemeConfig a1 = getMermaidThemeConfig a2.
Proof.
  intros a1 a2 Hmode Hvars.
  unfold getMermaidThemeConfig, cssVar. rewrite Hmode.
  rewrite (Hvars "--o-brand-primary") by (simpl; tauto).
  rewrite (Hvars "--o-main-text-color") by (simpl; tauto).
  rewrite (Hvars "--o-view-background-color") by (simpl; tauto).
  reflexivity.
Qed.

Lemma theme_config_inputs_witness :
  getMermaidThemeConfig whitespace_css_ambient = getMermaidThemeConfig dark_ambient.
Proof.
  apply theme_config_inputs; [reflexivity |].
  intros name [<- | [<- | [<- | []]]]; reflexivity.
Defined.

Lemma js_or_str_nonempty (a : option string) (b : string) :
  b <> "" -> js_or_str a b <> "".
Proof. intros Hb. by destruct a as [[|c s]|]. Qed.

(** X2.  Whatever the ambient state, the configuration has the palette
    ["base"] and none of its three theme-driven colours is the empty string:
    an unset, empty or blank custom property always falls back to a default.
    The slots that do not depend on the mode keep their fixed values. *)
Theorem theme_variables_nonempty :
  forall a : Ambient,
    let vars := themeVariables (getMermaidThemeConfig a) in
    theme (getMermaidThemeConfig a) = "base"
    /\ primaryColor vars <> ""
    /\ textColor vars <> ""
    /\ mainBkg vars <> ""
    /\ primaryTextColor vars = "#fff"
    /\ background vars = "transparent"
    /\ fontFamily vars = "inherit"
    /\ fontSize vars = "14px".
Proof.
  intros a vars. unfold vars, getMermaidThemeConfig, cssVar.
  destruct (String.eqb (getOdooTheme a) "dark");
    cbn [theme themeVariables primaryColor textColor mainBkg primaryTextColor
         background fontFamily fontSize];
    (split; [reflexivity |]);
    repeat (split; [by apply js_or_str_nonempty |]);
    repeat split.
Qed.

Lemma find_skip {A : Type} (p : A -> bool) (before : list A) (x : A) (after : list A) :
  Forall (fun y => p y = false) before -> p x = true ->
  find p (before ++ x :: after) = Some x.
Proof.
  intros Hb Hx. induction Hb as [|y before Hy _ IH]; simpl; [by rewrite Hx |].
  by rewrite Hy.
Qed.

(** X3.  How the cookie is read when the data attribute gives nothing: the
    rows of the header are scanned in order for the first one that starts
    with [color_scheme=], and of the text after that prefix only the part
    before the next [=] counts.  So a value such as [dark=1] reads as
    [dark], later [color_scheme] cookies are ignored, and an empty value
    gives ["light"]. *)
Theorem cookie_value_cut_at_equals :
  forall (a : Ambient) (before after : list string) (tail : string),
    truthy (colorScheme a) = false ->
    cookie a = join "; " (before ++ ("color_scheme=" +:+ tail) :: after) ->
    Forall (fun row => lacks ";" row = true) (before ++ ("color_scheme=" +:+ tail) :: after) ->
    Forall (fun row => startsWith "color_scheme=" row = false) before ->
    cookie_color_scheme (cookie a) = Some (before_char "=" tail)
    /\ getOdooTheme a = first_truthy [Some (before_char "=" tail)] "light".
Proof.
  intros a before after tail Hattr Hck Hsemi Hnone.
  assert (Hread : cookie_color_scheme (cookie a) = Some (before_char "=" tail)).
  { rewrite Hck. unfold cookie_color_scheme.
    assert (Hsplit : split "; " (join "; " (before ++ ("color_scheme=" +:+ tail) :: after))
                     = before ++ ("color_scheme=" +:+ tail) :: after).
    { destruct before as [|b before]; apply (split_join ";" " "); exact Hsemi. }
    rewrite Hsplit, (find_skip _ _ _ _ Hnone) by apply prefix_append.
    change ("color_scheme=" +:+ tail) with ("color_scheme" +:+ String "=" tail).
    unfold split. rewrite (split_go_piece "=" "") by reflexivity.
    cbn [split_go]. rewrite prefix_single. cbn [String.length Nat.sub lookup list_lookup].
    rewrite split_go_first. simpl. by rewrite string_of_list_ascii_of_string. }
  split; [exact Hread |].
  unfold getOdooTheme, js_or. rewrite Hattr, Hread.
  by destruct (before_char "=" tail).
Qed.

Lemma cookie_value_cut_at_equals_witness :
  cookie_color_scheme (cookie truncated_cookie_ambient) = Some "dark"
  /\ getOdooTheme truncated_cookie_ambient = "dark".
Proof.
  apply (cookie_value_cut_at_equals truncated_cookie_ambient
           ["tz=UTC"] ["color_scheme=light"] "dark=1"); try reflexivity.
  - repeat constructor.
  - repeat constructor.
Defined.

(** ** The dependency loader *)

Lemma filter_failed_insert (ps : list Promise) (p : nat) (x : Promise) :
  ps !! p = Some Pending ->
  length (filter (fun q => is_failed q = true) (<[p := x]> ps)) =
  (if is_failed x then 1 else 0) + length (filter (fun q => is_failed q = true) ps).
Proof.
  revert p. induction ps as [|y ps IH]; intros p Hp; [by rewrite lookup_nil in Hp |].
  destruct p as [|p]; simpl in Hp.
  - injection Hp as ->. simpl.
    rewrite (filter_cons_False _ Pending) by (simpl; discriminate).
    destruct (is_failed x) eqn:Ex.
    + by rewrite filter_cons_True.
    + rewrite filter_cons_False; [done | congruence].
  - simpl. destruct (is_failed y) eqn:Ey.
    + rewrite !filter_cons_True by done. simpl. rewrite (IH p Hp). lia.
    + rewrite !filter_cons_False by congruence. by apply IH.
Qed.

Lemma loader_history_init : loader_history loader_init.
Proof.
  split; cbn; try done; try lia.
  intros h cfg Hin. by apply elem_of_nil in Hin.
Qed.

Lemma loadMermaid_history (l : Loader) :
  loader_inv l -> loader_history l -> loader_history (loadMermaid l).1.
Proof.
  intros Hinv Hhist. unfold loadMermaid.
  destruct (mermaidModule l) as [h|] eqn:Em; [done |].
  destruct (mermaidLoadingPromise l) as [p|] eqn:El; [done |].
  destruct Hhist as [Hf Hlog Hlab Hurl Honce Hent Hld].
  split; simpl.
  - intros p Hp. rewrite length_app in Hp. simpl in Hp.
    assert (Hlt : p < length (promises l)) by lia.
    rewrite lookup_app_l by done.
    destruct (lookup_lt_is_Some_2 _ _ Hlt) as [[|[h|]] Hx]; [| | done].
    + destruct (inv_pending l Hinv p Hx) as [_ Hmark]. congruence.
    + pose proof (inv_fulfilled l Hinv p h Hx). congruence.
  - rewrite filter_app, length_app, (filter_cons_False _ Pending) by (simpl; discriminate).
    simpl. lia.
  - exact Hlab.
  - by constructor.
  - exact Honce.
  - intros h cfg Hin. destruct (Hent h cfg Hin) as (Hm & _). congruence.
  - intros p h Hp. apply lookup_snoc_Some in Hp as [Hp | [_ [=]]].
    pose proof (inv_fulfilled l Hinv p h Hp). congruence.
Qed.

Lemma import_settled_history (a : Ambient) (p : nat) (o : ImportOutcome) (l l' : Loader) :
  loader_inv l -> loader_history l -> import_settled a p o l = Some l' -> loader_history l'.
Proof.
  intros Hinv [Hf Hlog Hlab Hurl Honce Hent Hld]. unfold import_settled.
  destruct (promises l !! p) as [[|v]|] eqn:Epend; [| done ..].
  destruct (inv_pending l Hinv p Epend) as [Hm Hl].
  assert (Hlt : p < length (promises l)) by (by eapply lookup_lt_Some).
  assert (Hnil : initialized l = []).
  { destruct (initialized l) as [|[h cfg] rest] eqn:Ei; [done |].
    destruct (Hent h cfg) as (Hm' & _); [apply list_elem_of_here | congruence]. }
  assert (Hother : forall v q x, q <> p -> <[p := Fulfilled v]> (promises l) !! q = Some x ->
                                 x = Fulfilled None).
  { intros v q x Hne Hq. rewrite list_lookup_insert_ne in Hq by done.
    destruct x as [|[h|]]; [| | done].
    - destruct (inv_pending l Hinv q Hq) as [_ Hq']. congruence.
    - pose proof (inv_fulfilled l Hinv q h Hq). congruence. }
  assert (Hlast : forall v q, S q < length (<[p := Fulfilled v]> (promises l)) ->
                              <[p := Fulfilled v]> (promises l) !! q = Some (Fulfilled None)).
  { intros v q Hq. rewrite length_insert in Hq.
    destruct (decide (q = p)) as [-> | Hne].
    - rewrite (Hf p Hq) in Epend. discriminate.
    - rewrite list_lookup_insert_ne by done. by apply Hf. }
  intros [= <-].
  destruct o as [e | [h|]]; [| destruct (initialize_throws h) as [e|] |];
    (split; simpl;
     [ apply Hlast
     | rewrite (filter_failed_insert _ _ _ Epend); simpl; lia
     | try (constructor; [reflexivity |]); exact Hlab
     | exact Hurl
     | rewrite Hnil; simpl; lia
     | rewrite ?Hnil; intros h' cfg Hin
     | intros q h' Hq ]).
  all: try (by apply elem_of_nil in Hin).
  all: try (destruct (decide (q = p)) as [-> | Hne];
            [ rewrite list_lookup_insert_eq in Hq by done; discriminate Hq
            | apply Hother in Hq; [discriminate Hq | done] ]).
  - apply list_elem_of_singleton in Hin. injection Hin as -> ->.
    split; [done |]. split; [by exists a |].
    exists p. by apply list_lookup_insert_eq.
  - destruct (decide (q = p)) as [-> | Hne].
    + rewrite list_lookup_insert_eq in Hq by done. injection Hq as <-.
      rewrite Hnil. by eexists.
    + apply Hother in Hq; [discriminate Hq | done].
Qed.

Lemma loader_run_history (es : list LoaderEvent) (l l' : Loader) (rs : list LoadResult) :
  loader_inv l -> loader_history l -> loader_run es l = Some (l', rs) -> loader_history l'.
Proof.
  revert l rs. induction es as [|e es IH]; intros l rs Hinv Hhist; simpl.
  - by intros [= <- _].
  - destruct (loader_step e l) as [[l1 rs1]|] eqn:E1; simpl; [| done].
    destruct (loader_run es l1) as [[l2 rs2]|] eqn:E2; simpl; [| done].
    intros [= <- _]. eapply IH; [| | exact E2].
    + by eapply loader_step_inv.
    + destruct e as [|a p o]; simpl in E1.
      * pose proof (loadMermaid_history l Hinv Hhist) as Hh.
        destruct (loadMermaid l). by injection E1 as <- _.
      * destruct (import_settled a p o l) as [l1'|] eqn:Es; simpl in E1; [| done].
        injection E1 as <- _. by eapply import_settled_history.
Qed.

(** X4.  A cached handle is final.  Once [mermaidModule] holds a handle,
    be it initialised or left over from an [initialize] that threw, nothing
    the loader can go through changes its state any more: every later call
    returns that handle, no [import] is issued and no import is left to
    settle. *)
Theorem cached_handle_is_final :
  forall (es es' : list LoaderEvent) (l l' : Loader) (rs rs' : list LoadResult) (h : Handle),
    loader_run es loader_init = Some (l, rs) ->
    mermaidModule l = Some h ->
    loader_run es' l = Some (l', rs') ->
    l' = l /\ Forall (fun r => r = Ready h) rs'.
Proof.
  intros es es' l l' rs rs' h Hrun Hm.
  assert (Hinv : loader_inv l) by (eapply loader_run_inv; [apply loader_inv_init | exact Hrun]).
  clear Hrun. revert rs'. induction es' as [|e es' IH]; intros rs'; simpl.
  - intros [= <- <-]. by split.
  - destruct e as [|a p o]; simpl.
    + unfold loadMermaid. rewrite Hm. simpl.
      destruct (loader_run es' l) as [[l2 rs2]|] eqn:E2; simpl; [| done].
      intros [= <- <-]. destruct (IH rs2 eq_refl) as [-> Hall].
      split; [done | by constructor].
    + unfold import_settled.
      destruct (promises l !! p) as [[|v]|] eqn:Ep; simpl; [| done ..].
      destruct (inv_pending l Hinv p Ep) as [Hnone _]. congruence.
Qed.

Lemma cached_handle_is_final_witness :
  exists l : Loader,
    loader_run [Called; Settled light_ambient 0 (ImportResolved (Some stale_handle))]
      loader_init = Some (l, [InFlight 0])
    /\ initialized l = []
    /\ loader_run [Called; Called] l = Some (l, [Ready stale_handle; Ready stale_handle]).
Proof.
  eassert (Hrun : loader_run
             [Called; Settled light_ambient 0 (ImportResolved (Some stale_handle))]
             loader_init = Some (_, _)) by (vm_compute; reflexivity).
  eexists. split; [exact Hrun |]. split; [reflexivity |].
  match type of Hrun with
  | _ = Some (?l, _) =>
      eassert (Hnext : loader_run [Called; Called] l = Some (_, _))
        by (vm_compute; reflexivity)
  end.
  destruct (cached_handle_is_final _ _ _ _ _ _ stale_handle Hrun eq_refl Hnext) as [_ _].
  exact Hnext.
Defined.

Lemma all_but_last_failed (ps : list Promise) :
  (forall p, S p < length ps -> ps !! p = Some (Fulfilled None)) ->
  length ps <= S (length (filter (fun q => is_failed q = true) ps)).
Proof.
  induction ps as [|x ps IH]; intros Hf; simpl; [lia |].
  destruct ps as [|y ps]; [simpl; lia |].
  assert (Hx : x = Fulfilled None).
  { specialize (Hf 0). simpl in Hf. assert (H0 : Some x = Some (Fulfilled None)) by (apply Hf; lia).
    congruence. }
  subst x. rewrite filter_cons_True by done.
  assert (IH' : length (y :: ps) <= S (length (filter (fun q => is_failed q = true) (y :: ps)))).
  { apply IH. intros p Hp. apply (Hf (S p)). simpl in *. lia. }
  simpl in *. lia.
Qed.

(** X5.  The loader starts a new load only after every earlier one has
    failed: in every state it reaches, all the promises but the latest are
    fulfilled with [null].  Every [import] asks for the fixed URL, and there
    is at most one [import] more than there are failures logged. *)
Theorem retry_only_after_failure :
  forall (es : list LoaderEvent) (l : Loader) (rs : list LoadResult),
    loader_run es loader_init = Some (l, rs) ->
    (forall p, S p < length (promises l) -> promises l !! p = Some (Fulfilled None))
    /\ Forall (fun url => url = MERMAID_CDN_URL) (imports l)
    /\ length (imports l) <= S (length (console_error l)).
Proof.
  intros es l rs Hrun.
  assert (Hinv : loader_inv l) by (eapply loader_run_inv; [apply loader_inv_init | exact Hrun]).
  assert (Hhist : loader_history l)
    by (eapply loader_run_history; [apply loader_inv_init | apply loader_history_init | exact Hrun]).
  split; [apply (hist_failed l Hhist) |]. split; [apply (hist_url l Hhist) |].
  rewrite (inv_imports l Hinv), (hist_logged l Hhist).
  apply all_but_last_failed, (hist_failed l Hhist).
Qed.

Lemma retry_only_after_failure_witness :
  exists l : Loader,
    loader_run failed_then_loaded loader_init
      = Some (l, [InFlight 0; InFlight 1; InFlight 1])
    /\ promises l = [Fulfilled None; Fulfilled (Some loaded_handle)]
    /\ length (imports l) <= S (length (console_error l)).
Proof.
  eassert (Hrun : loader_run failed_then_loaded loader_init = Some (_, _))
    by (vm_compute; reflexivity).
  eexists. split; [exact Hrun |]. split; [reflexivity |].
  exact (proj2 (proj2 (retry_only_after_failure _ _ _ Hrun))).
Defined.

(** X6.  No load failure is dropped silently: in every state the loader
    reaches, [console.error] was called exactly once per load that ended in
    [null], each time with the label ["Failed to load Mermaid:"]. *)
Theorem every_failure_logged :
  forall (es : list LoaderEvent) (l : Loader) (rs : list LoadResult),
    loader_run es loader_init = Some (l, rs) ->
    length (console_error l) = length (filter (fun p => is_failed p = true) (promises l))
    /\ Forall (fun line => line.1 = "Failed to load Mermaid:") (console_error l).
Proof.
  intros es l rs Hrun.
  assert (Hhist : loader_history l)
    by (eapply loader_run_history; [apply loader_inv_init | apply loader_history_init | exact Hrun]).
  split; [apply (hist_logged l Hhist) | apply (hist_label l Hhist)].
Qed.

Lemma every_failure_logged_witness :
  exists l : Loader,
    loader_run failed_then_loaded loader_init
      = Some (l, [InFlight 0; InFlight 1; InFlight 1])
    /\ console_error l = [("Failed to load Mermaid:", {| message := Some "offline" |})]
    /\ length (console_error l) = length (filter (fun p => is_failed p = true) (promises l)).
Proof.
  eassert (Hrun : loader_run failed_then_loaded loader_init = Some (_, _))
    by (vm_compute; reflexivity).
  eexists. split; [exact Hrun |]. split; [reflexivity |].
  exact (proj1 (every_failure_logged _ _ _ Hrun)).
Defined.

(** X7.  [initialize] returns at most once in the life of the page.  When
    it has, it was for the handle that is cached, a promise is fulfilled with
    that handle, and its argument has [startOnLoad] false, [securityLevel]
    ["strict"], [suppressErrorRendering] true and the palette ["base"], with
    the theme variables derived from some ambient state; and every promise
    fulfilled with a handle is matched by that one call. *)
Theorem initialize_once :
  forall (es : list LoaderEvent) (l : Loader) (rs : list LoadResult),
    loader_run es loader_init = Some (l, rs) ->
    length (initialized l) <= 1
    /\ (forall h cfg, (h, cfg) ∈ initialized l ->
          mermaidModule l = Some h
          /\ (exists p, promises l !! p = Some (Fulfilled (Some h)))
          /\ startOnLoad cfg = false
          /\ securityLevel cfg = "strict"
          /\ suppressErrorRendering cfg = true
          /\ init_theme cfg = "base"
          /\ (exists a, init_themeVariables cfg = themeVariables (getMermaidThemeConfig a)))
    /\ (forall p h, promises l !! p = Some (Fulfilled (Some h)) ->
          exists cfg, initialized l = [(h, cfg)] /\ config_in_force l h = Some cfg).
Proof.
  intros es l rs Hrun.
  assert (Hhist : loader_history l)
    by (eapply loader_run_history; [apply loader_inv_init | apply loader_history_init | exact Hrun]).
  split; [apply (hist_once l Hhist) |]. split.
  - intros h cfg Hin. destruct (hist_entry l Hhist h cfg Hin) as (Hm & (a & ->) & Hp).
    repeat split; [exact Hm | exact Hp | by exists a].
  - intros p h Hp. destruct (hist_loaded l Hhist p h Hp) as (cfg & Hi).
    exists cfg. split; [exact Hi |].
    unfold config_in_force. rewrite Hi. simpl. by rewrite Nat.eqb_refl.
Qed.

Lemma initialize_once_witness :
  exists l : Loader,
    loader_run failed_then_loaded loader_init
      = Some (l, [InFlight 0; InFlight 1; InFlight 1])
    /\ initialized l =
         [(loaded_handle, initialize_argument (getMermaidThemeConfig dark_ambient))]
    /\ length (initialized l) <= 1.
Proof.
  eassert (Hrun : loader_run failed_then_loaded loader_init = Some (_, _))
    by (vm_compute; reflexivity).
  eexists. split; [exact Hrun |]. split; [reflexivity |].
  exact (proj1 (initialize_once _ _ _ Hrun)).
Defined.

(** X8.  A failed fetch is retried.  When the import of the load in flight
    is rejected, or its module has no [default] export, the waiting callers
    are given [null], nothing stays cached and the marker is cleared; the
    next call then starts a fresh load, the next promise in line, with one
    more [import] of the fixed URL. *)
Theorem failed_fetch_is_retried :
  forall (es : list LoaderEvent) (l : Loader) (rs : list LoadResult)
         (a : Ambient) (p : nat) (o : ImportOutcome),
    loader_run es loader_init = Some (l, rs) ->
    promises l !! p = Some Pending ->
    (forall h, o <> ImportResolved (Some h)) ->
    exists l1 l2 : Loader,
      import_settled a p o l = Some l1
      /\ awaited l1 (InFlight p) = Some None
      /\ mermaidModule l1 = None
      /\ mermaidLoadingPromise l1 = None
      /\ loadMermaid l1 = (l2, InFlight (S p))
      /\ promises l2 !! S p = Some Pending
      /\ imports l2 = MERMAID_CDN_URL :: imports l.
Proof.
  intros es l rs a p o Hrun Hpend Ho.
  assert (Hinv : loader_inv l) by (eapply loader_run_inv; [apply loader_inv_init | exact Hrun]).
  assert (Hhist : loader_history l)
    by (eapply loader_run_history; [apply loader_inv_init | apply loader_history_init | exact Hrun]).
  destruct (inv_pending l Hinv p Hpend) as [Hm _].
  assert (Hlt : p < length (promises l)) by (by eapply lookup_lt_Some).
  assert (Hlast : length (promises l) = S p).
  { destruct (decide (S p < length (promises l))) as [Hlt' | Hge]; [| lia].
    rewrite (hist_failed l Hhist p Hlt') in Hpend. discriminate. }
  assert (Hfail : exists e, import_settled a p o l = Some (load_failed e None p l)).
  { unfold import_settled. rewrite Hpend.
    destruct o as [e | [h|]]; [exists e; by rewrite Hm | by destruct (Ho h) | by eexists]. }
  destruct Hfail as [e Hfail].
  exists (load_failed e None p l), (loadMermaid (load_failed e None p l)).1.
  split; [exact Hfail |].
  unfold loadMermaid, load_failed; simpl.
  rewrite list_lookup_insert_eq by done. rewrite length_insert, Hlast.
  repeat split.
  rewrite lookup_app_r by (rewrite length_insert; lia).
  by rewrite length_insert, Hlast, Nat.sub_diag.
Qed.

Lemma failed_fetch_is_retried_witness :
  exists l1 l2 : Loader,
    import_settled light_ambient 0 (ImportRejected {| message := Some "offline" |})
      (loadMermaid loader_init).1 = Some l1
    /\ loadMermaid l1 = (l2, InFlight 1)
    /\ imports l2 = [MERMAID_CDN_URL; MERMAID_CDN_URL].
Proof.
  destruct (failed_fetch_is_retried [Called] (loadMermaid loader_init).1 [InFlight 0]
              light_ambient 0 (ImportRejected {| message := Some "offline" |})
              eq_refl eq_refl) as (l1 & l2 & H1 & _ & _ & _ & H2 & _ & H3).
  - intros h. discriminate.
  - exists l1, l2. split; [exact H1 |]. split; [exact H2 | exact H3].
Defined.

(** X9.  What a caller was given stays what it is.  Once the value of
    [await loadMermaid()] is there for a caller (the cached handle, or the
    outcome of the load it joined), no later call of the loader and no later
    import changes it: a caller that looks later gets the same handle, or
    the same [null], as one that looked earlier. *)
Theorem awaited_value_is_final :
  forall (es : list LoaderEvent) (l l' : Loader) (rs : list LoadResult)
         (r : LoadResult) (v : option Handle),
    awaited l r = Some v ->
    loader_run es l = Some (l', rs) ->
    awaited l' r = Some v.
Proof.
  intros es l l' rs r v Hv Hrun. destruct r as [h | p]; [exact Hv |].
  simpl in *. destruct (promises l !! p) as [[|v']|] eqn:Ep; [done | | done].
  injection Hv as ->.
  by rewrite (loader_run_fulfilled es l l' rs p v Hrun Ep).
Qed.

Lemma awaited_value_is_final_witness :
  exists l l' : Loader,
    loader_run [Called; Settled light_ambient 0 (ImportRejected {| message := Some "offline" |})]
      loader_init = Some (l, [InFlight 0])
    /\ loader_run [Called; Called; Settled dark_ambient 1 (ImportResolved (Some loaded_handle))]
         l = Some (l', [InFlight 1; InFlight 1])
    /\ awaited l (InFlight 0) = Some None
    /\ awaited l' (InFlight 0) = Some None
    /\ awaited l' (InFlight 1) = Some (Some loaded_handle).
Proof.
  eassert (Hrun : loader_run
             [Called; Settled light_ambient 0 (ImportRejected {| message := Some "offline" |})]
             loader_init = Some (_, _)) by (vm_compute; reflexivity).
  match type of Hrun with
  | _ = Some (?l, _) =>
      eassert (Hnext : loader_run
                 [Called; Called; Settled dark_ambient 1 (ImportResolved (Some loaded_handle))]
                 l = Some (_, _)) by (vm_compute; reflexivity)
  end.
  eexists _, _. split; [exact Hrun |]. split; [exact Hnext |]. split; [reflexivity |].
  split; [| reflexivity].
  refine (awaited_value_is_final _ _ _ _ (InFlight 0) None _ Hnext). reflexivity.
Defined.

(** ** White space and render identifiers *)

Lemma trimStart_clean (s : string) : starts_clean (trimStart s) = true.
Proof.
  induction s as [|c s IH]; [reflexivity |].
  simpl. destruct (is_white_space c) eqn:E; [exact IH |]. simpl. by rewrite E.
Qed.

Lemma trimStart_of_clean (s : string) : starts_clean s = true -> trimStart s = s.
Proof.
  destruct s as [|c s]; [reflexivity |]. simpl. intros Hc.
  apply negb_true_iff in Hc. by rewrite Hc.
Qed.

Lemma trimEnd_clean (s : string) : starts_clean s = true -> starts_clean (trimEnd s) = true.
Proof.
  destruct s as [|c s]; [reflexivity |]. simpl. intros Hc.
  destruct (trimEnd s); [| exact Hc].
  apply negb_true_iff in Hc. rewrite Hc. simpl. by rewrite Hc.
Qed.

Lemma trimEnd_idempotent (s : string) : trimEnd (trimEnd s) = trimEnd s.
Proof.
  induction s as [|c s IH]; [reflexivity |].
  simpl. destruct (trimEnd s) as [|d t] eqn:E.
  - destruct (is_white_space c) eqn:Ec; [reflexivity |]. simpl. by rewrite Ec.
  - change (trimEnd (String c (String d t))) with
      (match trimEnd (String d t) with
       | EmptyString => if is_white_space c then EmptyString else String c EmptyString
       | u => String c u
       end).
    by rewrite IH.
Qed.

Lemma trim_idempotent (s : string) : trim (trim s) = trim s.
Proof.
  unfold trim.
  rewrite (trimStart_of_clean (trimEnd (trimStart s))) by apply trimEnd_clean, trimStart_clean.
  apply trimEnd_idempotent.
Qed.

Lemma append_cut (c : ascii) (x y s s' : string) :
  lacks c x = true -> lacks c y = true ->
  x +:+ String c s = y +:+ String c s' -> x = y /\ s = s'.
Proof.
  revert y. induction x as [|d x IH]; intros [|d' y] Hx Hy Heq; simpl in Hx, Hy.
  - by injection Heq.
  - injection Heq as <- _. apply andb_prop in Hy as [Hd _].
    by rewrite Ascii.eqb_refl in Hd.
  - injection Heq as -> _. apply andb_prop in Hx as [Hd _].
    by rewrite Ascii.eqb_refl in Hd.
  - injection Heq as -> Heq.
    apply andb_prop in Hx as [_ Hx]. apply andb_prop in Hy as [_ Hy].
    destruct (IH y Hx Hy Heq) as [-> ->]. done.
Qed.

(** X10.  Two render identifiers are the same exactly when both the clock
    reading and the random suffix are the same (a clock reading is a string
    of digits, so it has no hyphen): renders that differ in either never
    share an identifier. *)
Theorem render_id_injective :
  forall now rnd now' rnd' : string,
    lacks "-" now = true -> lacks "-" now' = true ->
    (render_id now rnd = render_id now' rnd' <-> now = now' /\ rnd = rnd').
Proof.
  intros now rnd now' rnd' Hn Hn'. split; [| by intros [-> ->]].
  intros Heq. unfold render_id in Heq.
  change ("mermaid-" +:+ now +:+ "-" +:+ rnd)
    with ("mermaid-" +:+ (now +:+ String "-" rnd)) in Heq.
  change ("mermaid-" +:+ now' +:+ "-" +:+ rnd')
    with ("mermaid-" +:+ (now' +:+ String "-" rnd')) in Heq.
  apply String.app_inj in Heq.
  by apply (append_cut "-").
Qed.

Lemma render_id_injective_witness :
  render_id "1730000000000" "k3j9x2a" <> render_id "1730000000000" "p0q8r7s"
  /\ render_id "1730000000000" "k3j9x2a" <> render_id "1730000000001" "k3j9x2a".
Proof.
  split; intros Heq.
  - apply (render_id_injective "1730000000000" "k3j9x2a" "1730000000000" "p0q8r7s"
             eq_refl eq_refl) in Heq as [_ Heq]. discriminate Heq.
  - apply (render_id_injective "1730000000000" "k3j9x2a" "1730000000001" "k3j9x2a"
             eq_refl eq_refl) in Heq as [Heq _]. discriminate Heq.
Defined.

(** ** The view controller *)

(** X11.  A render that succeeds.  When an activation resumes with a handle
    and a text that is not blank, whatever the language of the block is by
    then, it hides [pre] and the textarea, shows the container and calls the
    renderer once with the trimmed text; when that call resolves, the content
    of the container is the returned markup, the text of [pre] and of the
    textarea is as it was, and the activation has returned. *)
Theorem render_success_shown `{Host} :
  forall (w : World) (t : nat) (r : LoadResult) (m : Handle) (now rnd svg : string),
    tasks w !! t = Some (AwaitLoad r) ->
    awaited (loader w) r = Some (Some m) ->
    trim (resolve_value (host w)) <> "" ->
    exists (w1 w2 : World) (c : Container),
      step (LoadAwaited t now rnd) w = Some w1
      /\ render_calls w1 =
           (m, render_id now rnd, trim (resolve_value (host w))) :: render_calls w
      /\ step (RenderSettled t (RenderResolved svg)) w1 = Some w2
      /\ render_calls w2 = render_calls w1
      /\ _mermaidContainer w2 = Some c
      /\ innerHTML c = svg
      /\ style_display c = "flex"
      /\ host w2 = set_display "none" (host w)
      /\ pre_textContent <$> pre (host w2) = pre_textContent <$> pre (host w)
      /\ textarea_value <$> textarea (host w2) = textarea_value <$> textarea (host w)
      /\ tasks w2 !! t = Some Returned.
Proof.
  intros w t r m now rnd svg Htask Hawait Htext.
  assert (Hlt : t < length (tasks w)) by (by eapply lookup_lt_Some).
  destruct (loaded_with_render t m now rnd w Htext)
    as (Hcalls & Htasks & (c & Hc & Hd & _) & Hhost).
  exists (renderMermaidDiagram_loaded t (Some m) now rnd w).
  eexists. exists (set_innerHTML svg c).
  split; [unfold step; by rewrite Htask, Hawait |].
  split; [exact Hcalls |].
  split.
  { unfold step. rewrite Htasks, list_lookup_insert_eq by done.
    unfold renderMermaidDiagram_rendered, assign_innerHTML. rewrite Hc. reflexivity. }
  cbn [_mermaidContainer host tasks render_calls with_tasks with_container set_innerHTML
       innerHTML style_display].
  split; [reflexivity |]. split; [reflexivity |]. split; [reflexivity |].
  split; [exact Hd |]. split; [exact Hhost |].
  split; [rewrite Hhost; simpl; by destruct (pre (host w)) |].
  split; [rewrite Hhost; simpl; by destruct (textarea (host w)) |].
  rewrite Htasks, list_insert_insert_eq. by apply list_lookup_insert_eq.
Qed.

Lemma render_success_shown_witness :
  exists (w2 : World) (c : Container),
    @run plain_host
      [LoadAwaited 0 "1730000000000" "k3j9x2a"; RenderSettled 0 (RenderResolved "<svg>1</svg>")]
      library_loaded = Some w2
    /\ _mermaidContainer w2 = Some c
    /\ innerHTML c = "<svg>1</svg>"
    /\ host w2 = set_display "none" (host library_loaded).
Proof.
  assert (Htask : tasks library_loaded !! 0 = Some (AwaitLoad (InFlight 0)))
    by (vm_compute; reflexivity).
  assert (Hawait : awaited (loader library_loaded) (InFlight 0) = Some (Some loaded_handle))
    by (vm_compute; reflexivity).
  assert (Htext : trim (resolve_value (host library_loaded)) <> "")
    by (vm_compute; discriminate).
  destruct (@render_success_shown plain_host library_loaded 0 (InFlight 0) loaded_handle
              "1730000000000" "k3j9x2a" "<svg>1</svg>" Htask Hawait Htext)
    as (w1 & w2 & c & H1 & _ & H2 & _ & Hc & Hhtml & _ & Hhost & _).
  exists w2, c. split.
  - cbn [run]. rewrite H1. cbn [mbind option_bind]. rewrite H2. reflexivity.
  - split; [exact Hc |]. split; [exact Hhtml | exact Hhost].
Defined.

(** X12.  A load that failed.  When an activation resumes with [null],
    whatever the text, it writes the fixed failure text into [pre] (if there
    is one) and returns: the [display] of [pre] and the textarea, the
    container, the document, the loader and the render calls are left as
    they were. *)
Theorem load_failure_shown `{Host} :
  forall (w : World) (t : nat) (r : LoadResult) (now rnd : string),
    tasks w !! t = Some (AwaitLoad r) ->
    awaited (loader w) r = Some None ->
    exists w' : World,
      step (LoadAwaited t now rnd) w = Some w'
      /\ pre (host w') =
           (fun p => mkPre (pre_display p) "Failed to load Mermaid library") <$> pre (host w)
      /\ textarea (host w') = textarea (host w)
      /\ embeddedState (host w') = embeddedState (host w)
      /\ props (host w') = props (host w)
      /\ _mermaidContainer w' = _mermaidContainer w
      /\ pre_parentNode w' = pre_parentNode w
      /\ loader w' = loader w
      /\ render_calls w' = render_calls w
      /\ tasks w' !! t = Some Returned.
Proof.
  intros w t r now rnd Htask Hawait.
  exists (renderMermaidDiagram_loaded t None now rnd w).
  split; [unfold step; by rewrite Htask, Hawait |].
  simpl. repeat split.
  apply list_lookup_insert_eq. by eapply lookup_lt_Some.
Qed.

Lemma load_failure_shown_witness :
  exists w' : World,
    @step plain_host (LoadAwaited 0 "1730000000000" "k3j9x2a") library_failed = Some w'
    /\ pre (host w') = Some (mkPre "" "Failed to load Mermaid library")
    /\ _mermaidContainer w' = None.
Proof.
  assert (Htask : tasks library_failed !! 0 = Some (AwaitLoad (InFlight 0)))
    by (vm_compute; reflexivity).
  assert (Hawait : awaited (loader library_failed) (InFlight 0) = Some None)
    by (vm_compute; reflexivity).
  destruct (@load_failure_shown plain_host library_failed 0 (InFlight 0)
              "1730000000000" "k3j9x2a" Htask Hawait)
    as (w' & H1 & Hpre & _ & _ & _ & Hc & _).
  exists w'. split; [exact H1 |]. split; [by rewrite Hpre | by rewrite Hc].
Defined.

(** X13.  A render overtaken by a switch of language.  If the render call
    settles, resolved or rejected, while the component holds no container
    (a [highlight] call with another language removed it meanwhile), the
    assignment in the [try] block and the one in the [catch] block both find
    [null]: the activation ends with a [TypeError], nothing is shown, and the
    host's part, the document, the loader and the render calls are as
    before. *)
Theorem overtaken_render_throws `{Host} :
  forall (w : World) (t : nat) (m : Handle) (id text : string) (o : RenderOutcome),
    tasks w !! t = Some (AwaitRender m id text) ->
    _mermaidContainer w = None ->
    exists w' : World,
      step (RenderSettled t o) w = Some w'
      /\ tasks w' !! t = Some (Threw TypeError_innerHTML)
      /\ _mermaidContainer w' = None
      /\ host w' = host w
      /\ pre_parentNode w' = pre_parentNode w
      /\ loader w' = loader w
      /\ render_calls w' = render_calls w.
Proof.
  intros w t m id text o Ht Hc.
  exists (with_tasks (<[t := Threw TypeError_innerHTML]> (tasks w)) w).
  split; [by eapply render_settled_without_container |].
  simpl. repeat split; [| exact Hc].
  apply list_lookup_insert_eq. by eapply lookup_lt_Some.
Qed.

Lemma overtaken_render_throws_witness :
  _mermaidContainer render_overtaken = None
  /\ exists w' : World,
       @step plain_host (RenderSettled 0 (RenderRejected parse_error)) render_overtaken
         = Some w'
       /\ tasks w' !! 0 = Some (Threw TypeError_innerHTML)
       /\ host w' = host render_overtaken.
Proof.
  assert (Htask : tasks render_overtaken !! 0
            = Some (AwaitRender loaded_handle (render_id "1730000000000" "k3j9x2a")
                      "graph TD; A-->B")) by (vm_compute; reflexivity).
  assert (Hc : _mermaidContainer render_overtaken = None) by (vm_compute; reflexivity).
  split; [exact Hc |].
  destruct (@overtaken_render_throws plain_host render_overtaken 0 loaded_handle _ _
              (RenderRejected parse_error) Htask Hc) as (w' & H1 & H2 & _ & H3 & _).
  exists w'. split; [exact H1 |]. split; [exact H2 | exact H3].
Defined.

(** ** Activations, promises and render calls *)

Lemma activation_inv_init (a : Ambient) (h : HostView) (s : option (list nat * list nat)) :
  activation_inv (world_init a h s).
Proof.
  split; simpl.
  - apply loader_inv_init.
  - intros t p Ht. by rewrite lookup_nil in Ht.
  - intros t h' Ht. by rewrite lookup_nil in Ht.
  - intros call Hin. by apply elem_of_nil in Hin.
Qed.

(** What a call of [loadMermaid] keeps and what it hands out. *)
Lemma loadMermaid_frame (l : Loader) :
  loader_inv l ->
  length (promises l) <= length (promises (loadMermaid l).1)
  /\ (forall h, mermaidModule l = Some h -> mermaidModule (loadMermaid l).1 = Some h)
  /\ match (loadMermaid l).2 with
     | InFlight p => p < length (promises (loadMermaid l).1)
     | Ready h => mermaidModule (loadMermaid l).1 = Some h
     end.
Proof.
  intros Hinv. unfold loadMermaid.
  destruct (mermaidModule l) as [h|] eqn:Em;
    [simpl; split; [lia |]; split; [intros h0 [= <-]; exact Em | exact Em] |].
  destruct (mermaidLoadingPromise l) as [p|] eqn:El; simpl.
  - split; [lia |]. split; [intros h Hh; congruence |].
    eapply lookup_lt_Some, (inv_marker l Hinv p El Em).
  - rewrite length_app. simpl. split; [lia |]. split; [done | lia].
Qed.

Lemma import_settled_frame (a : Ambient) (p : nat) (o : ImportOutcome) (l l' : Loader) :
  loader_inv l -> import_settled a p o l = Some l' ->
  length (promises l') = length (promises l) /\ mermaidModule l = None.
Proof.
  intros Hinv. unfold import_settled.
  destruct (promises l !! p) as [[|v]|] eqn:Ep; [| done ..].
  destruct (inv_pending l Hinv p Ep) as [Hm _]. intros [= <-].
  split; [| exact Hm].
  destruct o as [e | [h|]]; [| destruct (initialize_throws h) |]; simpl;
    by rewrite length_insert.
Qed.

(** An invariant is kept when the loader only moves on and every new
    activation and render call is in order. *)
Lemma activation_inv_frame (w w' : World) :
  activation_inv w ->
  loader_inv (loader w') ->
  length (promises (loader w)) <= length (promises (loader w')) ->
  (forall h, mermaidModule (loader w) = Some h -> mermaidModule (loader w') = Some h) ->
  (forall t r, tasks w' !! t = Some (AwaitLoad r) ->
     tasks w !! t = Some (AwaitLoad r)
     \/ match r with
        | InFlight p => p < length (promises (loader w'))
        | Ready h => mermaidModule (loader w') = Some h
        end) ->
  (forall call, call ∈ render_calls w' ->
     call ∈ render_calls w \/ proper_call (loader w') call) ->
  activation_inv w'.
Proof.
  intros [Hl Hp Hr Hc] Hl' Hlen Hmod Htasks Hcalls. split.
  - exact Hl'.
  - intros t p Ht. destruct (Htasks t _ Ht) as [Hold | Hnew]; [| exact Hnew].
    specialize (Hp t p Hold). lia.
  - intros t h Ht. destruct (Htasks t _ Ht) as [Hold | Hnew]; [| exact Hnew].
    apply Hmod. by eapply Hr.
  - intros call Hin. destruct (Hcalls call Hin) as [Hold | Hnew]; [| exact Hnew].
    destruct (Hc call Hold) as (Hm & Hrest). split; [by apply Hmod | exact Hrest].
Qed.

Lemma lookup_insert_AwaitLoad (ts : list Task) (t t' : nat) (x : Task) (r : LoadResult) :
  (forall r', x <> AwaitLoad r') ->
  <[t := x]> ts !! t' = Some (AwaitLoad r) -> ts !! t' = Some (AwaitLoad r).
Proof.
  intros Hx Hl. apply list_lookup_insert_Some in Hl as [(-> & Heq & _) | (_ & Hl)]; [| exact Hl].
  by destruct (Hx r).
Qed.

(** An activation found waiting for the loader after a step that only
    overwrote an entry with something else was waiting there before. *)
Ltac waited_before H :=
  eapply lookup_insert_AwaitLoad; [| exact H]; intros; discriminate.

Lemma step_activation_inv `{Host} (e : Event) (w w' : World) :
  step e w = Some w' -> activation_inv w -> activation_inv w'.
Proof.
  intros Hstep Hinv. pose proof (act_loader w Hinv) as Hl.
  destruct e as [a | h | focus | p o | t now rnd | t o | |]; simpl in Hstep.
  - injection Hstep as <-. apply (activation_inv_frame w); simpl; auto.
  - injection Hstep as <-. apply (activation_inv_frame w); simpl; auto.
  - injection Hstep as <-. unfold highlight.
    destruct (String.eqb _ _).
    + destruct (loadMermaid_frame (loader w) Hl) as (Hlen & Hmod & Hres).
      unfold _renderMermaidDiagram. simpl.
      destruct (loadMermaid (loader w)) as [l r] eqn:El. simpl in *.
      apply (activation_inv_frame w); simpl; auto.
      * eapply loadMermaid_inv; [exact Hl | exact El].
      * intros t r' Ht. apply lookup_snoc_Some in Ht as [Ht | [_ [= ->]]]; [by left | by right].
    + destruct (_mermaidContainer w); destruct (super_highlight _ _);
        apply (activation_inv_frame w); simpl; auto.
  - destruct (import_settled _ p o _) as [l|] eqn:El; simpl in Hstep; [| done].
    injection Hstep as <-.
    destruct (import_settled_frame _ _ _ _ _ Hl El) as [Hlen Hm].
    apply (activation_inv_frame w); simpl; auto.
    + by eapply import_settled_inv.
    + lia.
    + intros h Hh. congruence.
  - destruct (tasks w !! t) as [[r | | |]|] eqn:Et; [| done ..].
    destruct (awaited (loader w) r) as [m|] eqn:Ea; simpl in Hstep; [| done].
    injection Hstep as <-.
    assert (Hm : forall h, m = Some h -> mermaidModule (loader w) = Some h).
    { intros h ->. destruct r as [h' | p]; simpl in Ea.
      - injection Ea as ->. by eapply (act_ready w Hinv).
      - destruct (promises (loader w) !! p) as [[|v]|] eqn:Ep; [done | | done].
        injection Ea as ->. by eapply (inv_fulfilled _ Hl). }
    destruct m as [h|].
    + destruct (String.eqb_spec (trim (resolve_value (host w))) "") as [Hb | Hb].
      * destruct (loaded_without_render t (Some h) now rnd w (or_introl Hb)) as (Hr & Ht & _).
        apply (activation_inv_frame w); auto.
        -- unfold renderMermaidDiagram_loaded. cbv zeta. rewrite Hb. simpl.
           by destruct (_mermaidContainer w).
        -- unfold renderMermaidDiagram_loaded. cbv zeta. rewrite Hb. simpl.
           destruct (_mermaidContainer w); simpl; lia.
        -- unfold renderMermaidDiagram_loaded. cbv zeta. rewrite Hb. simpl.
           by destruct (_mermaidContainer w).
        -- intros t' r' Ht'. left. rewrite Ht in Ht'. waited_before Ht'.
        -- intros call Hin. left. by rewrite <- Hr.
      * destruct (loaded_with_render t h now rnd w Hb) as (Hr & Ht & _ & _).
        assert (Hsame : loader (renderMermaidDiagram_loaded t (Some h) now rnd w) = loader w).
        { unfold renderMermaidDiagram_loaded. cbv zeta.
          destruct (String.eqb _ _); by destruct (_mermaidContainer w). }
        apply (activation_inv_frame w); rewrite ?Hsame; auto.
        -- intros t' r' Ht'. left. rewrite Ht in Ht'. waited_before Ht'.
        -- intros call Hin. rewrite Hr in Hin.
           apply elem_of_cons in Hin as [-> | Hin]; [right | by left].
           split; [by apply Hm |]. split; [exact Hb |].
           split; [apply trim_idempotent | by exists now, rnd].
    + apply (activation_inv_frame w); simpl; auto.
      intros t' r' Ht'. left. waited_before Ht'.
  - destruct (tasks w !! t) as [[| | |]|]; [done | | done ..].
    injection Hstep as <-. unfold renderMermaidDiagram_rendered, assign_innerHTML.
    destruct o; destruct (_mermaidContainer w);
      apply (activation_inv_frame w); simpl; auto;
      intros t' r' Ht'; left; waited_before Ht'.
  - destruct (_mermaidContainer w) as [c|]; [| done].
    destruct (click_listener c); [| done].
    injection Hstep as <-. unfold container_clicked.
    destruct openCodeToolbar; apply (activation_inv_frame w); simpl; auto.
  - injection Hstep as <-.
    destruct (loadMermaid_frame (loader w) Hl) as (Hlen & Hmod & _).
    apply (activation_inv_frame w); simpl; auto.
    eapply loadMermaid_inv; [exact Hl | apply surjective_pairing].
Qed.

Lemma run_activation_inv `{Host} (es : list Event) (w w' : World) :
  activation_inv w -> run es w = Some w' -> activation_inv w'.
Proof.
  revert w. induction es as [|e es IH]; intros w Hinv; simpl.
  - by intros [= <-].
  - destruct (step e w) as [w1|] eqn:E1; simpl; [| done].
    apply IH. by eapply step_activation_inv.
Qed.

(** X14.  The renderer is never given a blank text.  In every state the
    component reaches, each call of [mermaid.render] so far was made with a
    text that is not empty and has no white space at either end, under an
    identifier of the form [mermaid-<clock>-<random>]. *)
Theorem renderer_text_trimmed `{Host} :
  forall (a : Ambient) (h0 : HostView) (s : option (list nat * list nat))
         (es : list Event) (w : World) (m : Handle) (id text : string),
    run es (world_init a h0 s) = Some w ->
    (m, id, text) ∈ render_calls w ->
    text <> "" /\ trim text = text /\ exists now rnd, id = render_id now rnd.
Proof.
  intros a h0 s es w m id text Hrun Hin.
  assert (Hinv : activation_inv w)
    by (eapply run_activation_inv; [apply activation_inv_init | exact Hrun]).
  destruct (act_calls w Hinv _ Hin) as (_ & Ht & Htrim & Hid). by repeat split.
Qed.

Lemma renderer_text_trimmed_witness :
  exists w : World,
    @run plain_host
      [HighlightCalled false; ImportSettled 0 (ImportResolved (Some loaded_handle));
       LoadAwaited 0 "1730000000000" "k3j9x2a"] padded_block = Some w
    /\ render_calls w = [(loaded_handle, "mermaid-1730000000000-k3j9x2a", "graph TD; A-->B")]
    /\ trim "graph TD; A-->B" = "graph TD; A-->B".
Proof.
  eassert (Hrun : @run plain_host
      [HighlightCalled false; ImportSettled 0 (ImportResolved (Some loaded_handle));
       LoadAwaited 0 "1730000000000" "k3j9x2a"] padded_block = Some _)
    by (vm_compute; reflexivity).
  eexists. split; [exact Hrun |]. split; [reflexivity |].
  refine (proj1 (proj2 (@renderer_text_trimmed plain_host _ _ _ _ _ loaded_handle
                          "mermaid-1730000000000-k3j9x2a" _ Hrun _))).
  apply list_elem_of_here.
Defined.

(** X15.  Every diagram is rendered by the one cached library object: in
    every state the component reaches, each render call so far was made on
    the handle that [mermaidModule] holds. *)
Theorem renders_use_cached_handle `{Host} :
  forall (a : Ambient) (h0 : HostView) (s : option (list nat * list nat))
         (es : list Event) (w : World) (m : Handle) (id text : string),
    run es (world_init a h0 s) = Some w ->
    (m, id, text) ∈ render_calls w ->
    mermaidModule (loader w) = Some m.
Proof.
  intros a h0 s es w m id text Hrun Hin.
  assert (Hinv : activation_inv w)
    by (eapply run_activation_inv; [apply activation_inv_init | exact Hrun]).
  by destruct (act_calls w Hinv _ Hin) as (Hm & _).
Qed.

Lemma renders_use_cached_handle_witness :
  exists w : World,
    @run plain_host rendered_twice
      (world_init light_ambient (code_block "mermaid" "graph TD; A-->B") (Some ([], [7])))
      = Some w
    /\ fst <$> (fst <$> render_calls w) = [loaded_handle; loaded_handle]
    /\ mermaidModule (loader w) = Some loaded_handle.
Proof.
  eassert (Hrun : @run plain_host rendered_twice
      (world_init light_ambient (code_block "mermaid" "graph TD; A-->B") (Some ([], [7])))
      = Some _) by (vm_compute; reflexivity).
  eexists. split; [exact Hrun |]. split; [reflexivity |].
  refine (@renders_use_cached_handle plain_host _ _ _ _ _ loaded_handle
            "mermaid-1730000000999-p0q8r7s" "graph TD; A-->B" Hrun _).
  apply list_elem_of_here.
Defined.

(** X16.  No activation waits in vain.  In every state the component
    reaches, an activation suspended on the loader either can resume at
    once, or waits for the load in flight; and then, however the import of
    that load settles, the activation can resume right after. *)
Theorem activation_can_resume `{Host} :
  forall (a : Ambient) (h0 : HostView) (s : option (list nat * list nat))
         (es : list Event) (w : World) (t : nat) (r : LoadResult) (now rnd : string),
    run es (world_init a h0 s) = Some w ->
    tasks w !! t = Some (AwaitLoad r) ->
    (exists w', step (LoadAwaited t now rnd) w = Some w')
    \/ (exists p, r = InFlight p
          /\ promises (loader w) !! p = Some Pending
          /\ forall o, exists w1 w2,
               step (ImportSettled p o) w = Some w1
               /\ step (LoadAwaited t now rnd) w1 = Some w2).
Proof.
  intros a h0 s es w t r now rnd Hrun Ht.
  assert (Hinv : activation_inv w)
    by (eapply run_activation_inv; [apply activation_inv_init | exact Hrun]).
  destruct r as [h | p].
  - left. eexists. simpl. by rewrite Ht.
  - pose proof (act_promise w Hinv t p Ht) as Hlt.
    destruct (lookup_lt_is_Some_2 _ _ Hlt) as [[|v] Hp].
    + right. exists p. split; [done |]. split; [exact Hp |].
      intros o.
      assert (Hs : exists l1 v, import_settled (ambient w) p o (loader w) = Some l1
                                /\ promises l1 !! p = Some (Fulfilled v)).
      { unfold import_settled. rewrite Hp.
        destruct o as [e | [h|]]; [| destruct (initialize_throws h) |];
          eexists _, _; (split; [reflexivity |]); simpl; by apply list_lookup_insert_eq. }
      destruct Hs as (l1 & v & Hs & Hv).
      exists (with_loader l1 w), (renderMermaidDiagram_loaded t v now rnd (with_loader l1 w)).
      split; [simpl; by rewrite Hs |].
      unfold step. cbn [tasks loader with_loader]. rewrite Ht.
      unfold awaited. by rewrite Hv.
    + left. eexists. unfold step. rewrite Ht. unfold awaited. by rewrite Hp.
Qed.

Lemma activation_can_resume_witness :
  tasks first_highlight !! 0 = Some (AwaitLoad (InFlight 0))
  /\ @step plain_host (LoadAwaited 0 "1730000000000" "k3j9x2a") first_highlight = None
  /\ exists w1 w2,
       @step plain_host (ImportSettled 0 (ImportRejected {| message := Some "offline" |}))
         first_highlight = Some w1
       /\ @step plain_host (LoadAwaited 0 "1730000000000" "k3j9x2a") w1 = Some w2.
Proof.
  split; [reflexivity |]. split; [reflexivity |].
  destruct (@activation_can_resume plain_host light_ambient
              (code_block "mermaid" "graph TD; A-->B") (Some ([], [7]))
              [HighlightCalled false] first_highlight 0 (InFlight 0)
              "1730000000000" "k3j9x2a" eq_refl eq_refl) as [[w' Hw'] | (p & Hp & _ & Hall)].
  - discriminate Hw'.
  - injection Hp as <-. apply Hall.
Defined.

(** ** The container and the document *)

Lemma step_container_attrs `{Host} (e : Event) (w w' : World) :
  step e w = Some w' -> container_attrs w -> container_attrs w'.
Proof.
  unfold container_attrs, as_created. intros Hstep Hinv.
  destruct e as [a | h | focus | p o | t now rnd | t o | |]; simpl in Hstep.
  - by injection Hstep as <-.
  - by injection Hstep as <-.
  - injection Hstep as <-. unfold highlight.
    destruct (String.eqb _ _).
    + unfold _renderMermaidDiagram. by destruct (loadMermaid (loader w)).
    + destruct (_mermaidContainer w) as [c|] eqn:Ec.
      * by destruct (super_highlight focus (host (remove_container c w))).
      * destruct (super_highlight focus (host w)). simpl. by rewrite Ec.
  - destruct (import_settled _ p o _); simpl in Hstep; [| done].
    by injection Hstep as <-.
  - destruct (tasks w !! t) as [[r | | |]|]; [| done ..].
    destruct (awaited (loader w) r) as [m|]; simpl in Hstep; [| done].
    injection Hstep as <-. destruct m as [m|]; [| exact Hinv].
    unfold renderMermaidDiagram_loaded. cbv zeta.
    destruct (_mermaidContainer w) as [c0|] eqn:Ec.
    + destruct (Hinv c0 eq_refl) as ((Hn & Hs & _ & Hk) & Hid).
      destruct (String.eqb _ _); simpl; rewrite Ec; simpl; intros c [= <-]; simpl; done.
    + destruct (String.eqb _ _); simpl; intros c [= <-]; simpl; repeat split; lia.
  - destruct (tasks w !! t) as [[| | |]|]; [done | | done ..].
    injection Hstep as <-. unfold renderMermaidDiagram_rendered, assign_innerHTML.
    destruct o; destruct (_mermaidContainer w) as [c0|] eqn:Ec; simpl; rewrite ?Ec;
      try done; intros c [= <-]; simpl; by apply Hinv.
  - destruct (_mermaidContainer w) as [c|] eqn:Ec; [| done].
    destruct (click_listener c); [| done].
    injection Hstep as <-. unfold container_clicked.
    destruct openCodeToolbar; simpl; by rewrite Ec.
  - by injection Hstep as <-.
Qed.

Lemma run_container_attrs `{Host} (es : list Event) (w w' : World) :
  container_attrs w -> run es w = Some w' -> container_attrs w'.
Proof.
  revert w. induction es as [|e es IH]; intros w Hinv; simpl.
  - by intros [= <-].
  - destruct (step e w) as [w1|] eqn:E1; simpl; [| done].
    apply IH. by eapply step_container_attrs.
Qed.

(** X17.  In every state the component reaches, the container it holds has
    the class name [o_mermaid_container], the inline style it was created
    with, [display] ["flex"] and its click listener: rendering, failing and
    re-rendering change its content only.  So a click on it is always
    answered. *)
Theorem container_as_created `{Host} :
  forall (a : Ambient) (h0 : HostView) (s : option (list nat * list nat))
         (es : list Event) (w : World) (c : Container),
    run es (world_init a h0 s) = Some w ->
    _mermaidContainer w = Some c ->
    className c = "o_mermaid_container"
    /\ style_cssText c = CONTAINER_CSS
    /\ style_display c = "flex"
    /\ click_listener c = true
    /\ step ContainerClicked w = Some (container_clicked w).
Proof.
  intros a h0 s es w c Hrun Hc.
  assert (Hinv : container_attrs w).
  { eapply run_container_attrs; [| exact Hrun]. intros c' Hc'. discriminate Hc'. }
  destruct (Hinv c Hc) as ((Hn & Hs & Hd & Hk) & _).
  repeat split; try done. simpl. by rewrite Hc, Hk.
Qed.

Lemma container_as_created_witness :
  exists (w : World) (c : Container),
    @run plain_host
      (rendered_twice ++ [RenderSettled 1 (RenderRejected parse_error)])
      (world_init light_ambient (code_block "mermaid" "graph TD; A-->B") (Some ([], [7])))
      = Some w
    /\ _mermaidContainer w = Some c
    /\ innerHTML c = error_html "Parse error on line 1"
    /\ className c = "o_mermaid_container"
    /\ style_display c = "flex".
Proof.
  eassert (Hrun : @run plain_host
      (rendered_twice ++ [RenderSettled 1 (RenderRejected parse_error)])
      (world_init light_ambient (code_block "mermaid" "graph TD; A-->B") (Some ([], [7])))
      = Some _) by (vm_compute; reflexivity).
  eexists _, _. split; [exact Hrun |]. split; [reflexivity |]. split; [reflexivity |].
  destruct (@container_as_created plain_host _ _ _ _ _ _ Hrun eq_refl) as (Hn & _ & Hd & _).
  split; [exact Hn | exact Hd].
Defined.

Lemma filter_other_nodes (id : nat) (l : list nat) :
  filter (fun n => negb (is_container id n)) (OtherNode <$> l) = OtherNode <$> l.
Proof.
  induction l as [|x l IH]; [reflexivity |].
  rewrite fmap_cons, filter_cons_True by done. by rewrite IH.
Qed.

Lemma container_life_siblings `{Host} (s : option (list nat * list nat))
    (e : Event) (w w' : World) :
  container_life e w w' -> siblings_inv s w -> siblings_inv s w'.
Proof.
  unfold container_life, siblings_inv. intros Hlife Hinv.
  destruct s as [[b f]|].
  - destruct Hinv as (next & Hdom & Hnext).
    destruct (_mermaidContainer w) as [c|] eqn:Ec, (_mermaidContainer w') as [c'|] eqn:Ec'.
    + destruct Hlife as (Hid & _ & ->). exists next. split; [exact Hdom |].
      destruct Hnext as [-> | (c0 & [= <-] & ->)]; [by left |].
      right. exists c'. by rewrite Hid.
    + destruct Hlife as (_ & _ & ->). rewrite Hdom. simpl.
      exists (OtherNode <$> f). unfold remove_node. simpl.
      rewrite filter_other_nodes. split; [| by left].
      destruct Hnext as [-> | (c0 & [= <-] & ->)].
      * by rewrite filter_other_nodes.
      * rewrite filter_cons_False by (simpl; rewrite Nat.eqb_refl; simpl; tauto).
        by rewrite filter_other_nodes.
    + destruct Hlife as (_ & _ & _ & ->).
      destruct Hnext as [-> | (c0 & [=] & _)].
      destruct (pre (host w)); rewrite Hdom; simpl.
      * eexists. split; [reflexivity |]. right. by exists c'.
      * eexists. split; [reflexivity |]. by left.
    + destruct Hlife as (_ & ->). exists next. split; [exact Hdom |].
      destruct Hnext as [-> | (c0 & [=] & _)]. by left.
  - destruct (_mermaidContainer w) as [c|], (_mermaidContainer w') as [c'|].
    + destruct Hlife as (_ & _ & ->). exact Hinv.
    + destruct Hlife as (_ & _ & ->). by rewrite Hinv.
    + destruct Hlife as (_ & _ & _ & ->). destruct (pre (host w)); by rewrite Hinv.
    + destruct Hlife as (_ & ->). exact Hinv.
Qed.

Lemma run_siblings_inv `{Host} (s : option (list nat * list nat))
    (es : list Event) (w w' : World) :
  siblings_inv s w -> run es w = Some w' -> siblings_inv s w'.
Proof.
  revert w. induction es as [|e es IH]; intros w Hinv; simpl.
  - by intros [= <-].
  - destruct (step e w) as [w1|] eqn:E1; simpl; [| done].
    apply IH. eapply container_life_siblings; [| exact Hinv]. by apply step_container_life.
Qed.

(** X18.  The patch touches nothing of the host's document but its own
    container.  In every state the component reaches, the elements before
    [pre] are those the host mounted, in their order, and so are the elements
    after it, except that the container the component holds may stand right
    after [pre]; whenever the component holds no container, the document is
    exactly as the host mounted it. *)
Theorem host_siblings_kept `{Host} :
  forall (a : Ambient) (h0 : HostView) (before after : list nat)
         (es : list Event) (w : World),
    run es (world_init a h0 (Some (before, after))) = Some w ->
    exists next,
      pre_parentNode w = Some (mkSiblings (OtherNode <$> before) next)
      /\ (next = OtherNode <$> after
          \/ exists c, _mermaidContainer w = Some c
                       /\ next = ContainerNode (cid c) :: (OtherNode <$> after))
      /\ (_mermaidContainer w = None ->
          pre_parentNode w = pre_parentNode (world_init a h0 (Some (before, after)))).
Proof.
  intros a h0 before after es w Hrun.
  assert (Hinv : siblings_inv (Some (before, after)) w).
  { eapply run_siblings_inv; [| exact Hrun]. simpl. eexists. split; [reflexivity | by left]. }
  destruct Hinv as (next & Hdom & Hnext).
  exists next. split; [exact Hdom |]. split; [exact Hnext |].
  intros Hnone. rewrite Hdom. simpl.
  destruct Hnext as [-> | (c & Hc & _)]; [done | congruence].
Qed.

Lemma host_siblings_kept_witness :
  exists w : World,
    @run plain_host
      (rendered_twice ++
       [HostChanged (set_display "none" (code_block "python" "print(1)"));
        HighlightCalled false])
      (world_init light_ambient (code_block "mermaid" "graph TD; A-->B") (Some ([3; 2], [7])))
      = Some w
    /\ _mermaidContainer w = None
    /\ pre_parentNode w = Some (mkSiblings [OtherNode 3; OtherNode 2] [OtherNode 7]).
Proof.
  eassert (Hrun : @run plain_host
      (rendered_twice ++
       [HostChanged (set_display "none" (code_block "python" "print(1)"));
        HighlightCalled false])
      (world_init light_ambient (code_block "mermaid" "graph TD; A-->B") (Some ([3; 2], [7])))
      = Some _) by (vm_compute; reflexivity).
  eexists. split; [exact Hrun |]. split; [reflexivity |].
  destruct (@host_siblings_kept plain_host _ _ _ _ _ _ Hrun) as (next & _ & _ & Hnone).
  exact (Hnone eq_refl).
Defined.

(** X19.  Rendering never edits the code.  A [highlight] call in diagram
    mode leaves the host's part of the component exactly as it was (the
    host's own [highlight] is not run); and a theme change, an import or a
    render call that settles, an activation that resumes or a call of the
    loader by another component change at most the [display] of [pre] and
    the textarea and the text shown in [pre]: the language, the text and the
    edit state stay what they were. *)
Theorem rendering_keeps_code `{Host} :
  forall (e : Event) (w w' : World),
    step e w = Some w' ->
    match e with
    | HostChanged _ | ContainerClicked => True
    | HighlightCalled focus =>
        resolve_languageId (host w) = "mermaid" ->
        host w' = host w /\ (highlight focus w).2 = None
    | _ =>
        embeddedState (host w') = embeddedState (host w)
        /\ props (host w') = props (host w)
        /\ state (host w') = state (host w)
        /\ textarea_value <$> textarea (host w') = textarea_value <$> textarea (host w)
        /\ resolve_languageId (host w') = resolve_languageId (host w)
        /\ resolve_value (host w') = resolve_value (host w)
    end.
Proof.
  intros e w w' Hstep.
  assert (Hres : forall h h' : HostView,
             embeddedState h' = embeddedState h -> props h' = props h ->
             state h' = state h ->
             textarea_value <$> textarea h' = textarea_value <$> textarea h ->
             embeddedState h' = embeddedState h /\ props h' = props h /\ state h' = state h
             /\ textarea_value <$> textarea h' = textarea_value <$> textarea h
             /\ resolve_languageId h' = resolve_languageId h
             /\ resolve_value h' = resolve_value h).
  { intros h h' He Hp Hs Ht. unfold resolve_languageId, resolve_value.
    by rewrite He, Hp, Ht. }
  destruct e as [a | h | focus | p o | t now rnd | t o | |]; simpl in Hstep; try exact I.
  - injection Hstep as <-. by apply Hres.
  - injection Hstep as <-. intros Hlang. unfold highlight. rewrite Hlang. simpl.
    unfold _renderMermaidDiagram. by destruct (loadMermaid (loader w)).
  - destruct (import_settled _ p o _); simpl in Hstep; [| done].
    injection Hstep as <-. by apply Hres.
  - destruct (tasks w !! t) as [[r | | |]|]; [| done ..].
    destruct (awaited (loader w) r) as [m|]; simpl in Hstep; [| done].
    injection Hstep as <-. unfold renderMermaidDiagram_loaded. cbv zeta.
    destruct m as [m|]; [| by apply Hres].
    destruct (String.eqb _ _); destruct (_mermaidContainer w);
      apply Hres; simpl; try done; by destruct (textarea (host w)).
  - destruct (tasks w !! t) as [[| | |]|]; [done | | done ..].
    injection Hstep as <-. unfold renderMermaidDiagram_rendered, assign_innerHTML.
    destruct o; destruct (_mermaidContainer w); by apply Hres.
  - injection Hstep as <-. by apply Hres.
Qed.

Lemma rendering_keeps_code_witness :
  exists w' : World,
    @step plain_host (LoadAwaited 0 "1730000000000" "k3j9x2a") library_loaded = Some w'
    /\ pre_display <$> pre (host w') = Some "none"
    /\ resolve_value (host w') = "graph TD; A-->B"
    /\ resolve_languageId (host w') = "mermaid".
Proof.
  eassert (Hstep : @step plain_host (LoadAwaited 0 "1730000000000" "k3j9x2a") library_loaded
                   = Some _) by (vm_compute; reflexivity).
  eexists. split; [exact Hstep |]. split; [reflexivity |].
  destruct (@rendering_keeps_code plain_host _ _ _ Hstep) as (_ & _ & _ & _ & Hl & Hv).
  split; [by rewrite Hv | by rewrite Hl].
Defined.
